(** * TFRT GPU kernels and asynchronous dispatch: a shallow embedding

    The development follows three source files:
    - [backends/gpu/lib/kernels/kernels.h]: the [WithChainResult] adapter
      that turns a synchronous kernel into one that also returns a [Chain];
    - [include/tfrt/host_context/async_dispatch.h]: the typed overloads of
      [EnqueueWork], [EnqueueBlockingWork] and [RunBlockingWork];
    - [backends/gpu/lib/kernels/kernels.cc]: the CUDA kernels built on both.

    Stateful code is written in state-passing style.  Fixed-width integers
    are [Z] with the wrap-around of the C++ conversions written out. *)

From Stdlib Require Import ZArith String List Bool Lia.
From stdpp Require Import base list pretty.

Local Open Scope string_scope.
Local Open Scope list_scope.
Local Open Scope Z_scope.

(* ================================================================== *)
(** * Part I.  Definitions *)
(* ================================================================== *)

(** ** Support types: [llvm::Error], [llvm::Expected], [tfrt::Chain] *)

(** The payload of a failed [llvm::Error]; [StrCat(error)] renders it. *)
Record ErrorInfo := MakeStringError { message : string }.

Definition StrCat (e : ErrorInfo) : string := message e.

(** [llvm::Error]: [None] is [Error::success()].  The C++ test
    [if (auto error = ...)] is true exactly on [Some _]. *)
Definition Error := option ErrorInfo.

(** [llvm::Expected<T>]: either a value or a failure, never both. *)
Inductive Expected (T : Type) : Type :=
| Value (v : T)
| Unexpected (e : ErrorInfo).
Arguments Value {T} v.
Arguments Unexpected {T} e.

(** [bool(expected)]. *)
Definition has_value {T} (x : Expected T) : bool :=
  match x with Value _ => true | Unexpected _ => false end.

(** [tfrt::Chain] is an empty class; [Chain{}] is its only value. *)
Inductive Chain : Type := MkChain.

(** ** [std::tuple] *)

(** [std::tuple<Ts...>] as a right-nested product closed by [unit]. *)
Fixpoint tuple (Ts : list Type) : Type :=
  match Ts with
  | [] => unit
  | T :: Ts' => (T * tuple Ts')%type
  end.

Definition make_tuple1 {A} (a : A) : tuple [A] := (a, tt).
Definition make_tuple2 {A B} (a : A) (b : B) : tuple [A; B] := (a, (b, tt)).

Fixpoint tuple_cat {Ts Us : list Type} : tuple Ts -> tuple Us -> tuple (Ts ++ Us) :=
  match Ts with
  | [] => fun _ u => u
  | T :: Ts' => fun t u => (fst t, tuple_cat (snd t) u)
  end.

(** The last element of a tuple of known non-empty tail, and what
    precedes it. *)
Fixpoint tuple_last {Ts : list Type} {U : Type} : tuple (Ts ++ [U]) -> U :=
  match Ts with
  | [] => fun t => fst t
  | T :: Ts' => fun t => tuple_last (snd t)
  end.

Fixpoint tuple_init {Ts : list Type} {U : Type} : tuple (Ts ++ [U]) -> tuple Ts :=
  match Ts with
  | [] => fun _ => tt
  | T :: Ts' => fun t => (fst t, tuple_init (snd t))
  end.

(** ** C++ return types, as far as template selection looks at them *)

#[warnings="-register-all"]
Inductive CType : Type :=
| TVoid                         (* void *)
| TError                        (* llvm::Error *)
| TChain                        (* tfrt::Chain *)
| TNamed (name : string)        (* any other non-template type *)
| TExpected (T : CType)         (* llvm::Expected<T> *)
| TTuple (Ts : list CType)      (* std::tuple<Ts...> *)
| TAsyncValueRef (T : CType).   (* tfrt::AsyncValueRef<T> *)

Definition is_void (T : CType) : bool :=
  match T with TVoid => true | _ => false end.

Definition is_Expected (T : CType) : bool :=
  match T with TExpected _ => true | _ => false end.

(** ** kernels.h: [internal::WithChainResult] *)

(** The partial specialisations of [WithChainResult<F, F>], named by the
    return type [Ret] of the function pointer type [F]. *)
Inductive Specialization : Type :=
| ReturnsVoid
| ReturnsError
| ReturnsExpected (Result : CType)
| ReturnsExpectedTuple (Results : list CType).

(** Which specialisation the compiler selects for a pointer to a function
    returning [Ret], whatever its parameters.
    [Expected<std::tuple<Results...>>] matches two patterns and the more
    specialised one wins.  The primary template is declared but never
    defined, so every other return type has no [Invoke]. *)
Definition WithChainResult (Ret : CType) : option Specialization :=
  match Ret with
  | TVoid => Some ReturnsVoid
  | TError => Some ReturnsError
  | TExpected (TTuple Results) => Some (ReturnsExpectedTuple Results)
  | TExpected Result => Some (ReturnsExpected Result)
  | _ => None
  end.

(** The declared return type of [Invoke] in each specialisation. *)
Definition Invoke_type (s : Specialization) : CType :=
  match s with
  | ReturnsVoid => TChain
  | ReturnsError => TExpected TChain
  | ReturnsExpected Result => TExpected (TTuple [Result; TChain])
  | ReturnsExpectedTuple Results => TExpected (TTuple (Results ++ [TChain]))
  end.

(** [TFRT_WITH_CHAIN_RESULT(sync_func)] compiles iff a specialisation
    exists for the return type of [sync_func]. *)
Definition convertible (Ret : CType) : Prop :=
  exists s, WithChainResult Ret = Some s.

Section WithChainResult.
(** [S] is the state of the process the wrapped function runs in: all
    it can read and write, the work queue of the host included.
    [Args] is the parameter pack. *)
Context {Proc Args : Type}.

(** The process state together with the record of the calls made
    through [sync_func_ptr], oldest first. *)
Record Observed : Type := { proc : Proc; calls : list Args }.

Definition Kernel (A : Type) : Type := Observed -> A * Observed.

(** [sync_func_ptr(std::forward<Args>(args)...)]. *)
Definition call {R} (sync_func_ptr : Args -> Proc -> R * Proc) (args : Args) : Kernel R :=
  fun o =>
    let (r, s') := sync_func_ptr args (proc o) in
    (r, {| proc := s'; calls := calls o ++ [args] |}).

Definition ret {A} (a : A) : Kernel A := fun o => (a, o).

Definition bind {A B} (m : Kernel A) (k : A -> Kernel B) : Kernel B :=
  fun o => let (a, o') := m o in k a o'.

(** Return a Chain instead of void. *)
Definition Invoke_void (sync_func_ptr : Args -> Proc -> unit * Proc) (args : Args)
  : Kernel Chain :=
  bind (call sync_func_ptr args) (fun _ => ret MkChain).

(** Return an Expected<Chain> instead of an Error. *)
Definition Invoke_Error (sync_func_ptr : Args -> Proc -> Error * Proc) (args : Args)
  : Kernel (Expected Chain) :=
  bind (call sync_func_ptr args) (fun error =>
    match error with
    | Some e => ret (Unexpected e)
    | None => ret (Value MkChain)
    end).

(** Return Expected<tuple<T, Chain>> instead of Expected<T>. *)
Definition Invoke_Expected {Result : Type}
    (sync_func_ptr : Args -> Proc -> Expected Result * Proc) (args : Args)
  : Kernel (Expected (tuple [Result; Chain : Type])) :=
  bind (call sync_func_ptr args) (fun result =>
    match result with
    | Unexpected e => ret (Unexpected e)
    | Value r => ret (Value (make_tuple2 r MkChain))
    end).

(** Return Expected<tuple<..., Chain>> instead of Expected<tuple<...>>. *)
Definition Invoke_Expected_tuple {Results : list Type}
    (sync_func_ptr : Args -> Proc -> Expected (tuple Results) * Proc) (args : Args)
  : Kernel (Expected (tuple (Results ++ [Chain : Type]))) :=
  bind (call sync_func_ptr args) (fun tuple =>
    match tuple with
    | Unexpected e => ret (Unexpected e)
    | Value t => ret (Value (tuple_cat t (make_tuple1 MkChain)))
    end).

End WithChainResult.
Arguments Observed : clear implicits.

(** ** async_dispatch.h: result types *)

(** [internal::UnwrapExpected<T>::type]: the primary template is the
    identity, the specialisation strips one [Expected]. *)
Definition UnwrapExpected (T : CType) : CType :=
  match T with
  | TExpected U => U
  | _ => T
  end.

(** [internal::AsyncResultTypeT<F>], given [std::result_of_t<F()>]. *)
Definition AsyncResultTypeT (result_of_F : CType) : CType :=
  UnwrapExpected result_of_F.

(** The typed overloads take part in overload resolution only when
    [!std::is_void<R>()]; they then return [AsyncValueRef<R>]. *)
Definition typed_overload (result_of_F : CType) : option CType :=
  let R := AsyncResultTypeT result_of_F in
  if is_void R then None else Some (TAsyncValueRef R).

(** ** Async values (async_value_ref.h is not in the source tree) *)

(** Modelled from the spec: the future cell of section 3, whose state is
    one of Unresolved, HasValue(T), HasError(ErrorInfo).  Stands for the
    class [AsyncValue], which is not in the source tree. *)
Inductive AsyncValue (T : Type) : Type :=
| Unresolved
| HasValue (v : T)
| HasError (e : ErrorInfo).
Arguments Unresolved {T}.
Arguments HasValue {T} v.
Arguments HasError {T} e.

(** An [AsyncValueRef<T>] names a cell; [CopyRef()] yields a second
    reference to the same cell, so a copy is the same [AsyncValueRef]. *)
Record AsyncValueRef : Type := { cell : nat }.

Section Futures.
Context {T : Type}.

(** Modelled from the spec: [resolve]/[resolve_error] of section 4.1
    move a cell out of Unresolved exactly once, and a second attempt
    is a contract violation ([None] here).  Stands for the common part
    of [AsyncValueRef::emplace] and [AsyncValueRef::SetError], which are
    not in the source tree. *)
Definition resolve (r : AsyncValueRef) (a : AsyncValue T)
    (h : list (AsyncValue T)) : option (list (AsyncValue T)) :=
  match h !! cell r with
  | Some Unresolved => Some (<[cell r := a]> h)
  | _ => None
  end.

(** Modelled from the spec: [resolve(f, value)] of section 4.1, for
    [AsyncValueRef<T>::emplace(T)]. *)
Definition emplace (r : AsyncValueRef) (v : T) := resolve r (HasValue v).

(** Modelled from the spec: [resolve_error(f, err)] of section 4.1, for
    [AsyncValueRef<T>::SetError(string_view)]. *)
Definition SetError (r : AsyncValueRef) (msg : string) :=
  resolve r (HasError (MakeStringError msg)).

(** Modelled from the spec: "if the closure's natural return type is
    itself fallible-value shaped, the produced future is resolved with
    error instead of value on failure, never both" (section 4.2).
    Stands for the overload [AsyncValueRef<T>::emplace(Expected<T>)],
    which is not in the source tree. *)
Definition emplace_Expected (r : AsyncValueRef) (x : Expected T) :=
  match x with
  | Value v => emplace r v
  | Unexpected e => resolve r (HasError e)
  end.

(** [result.emplace(x)] picks its overload from the type of [x]. *)
Class Emplace (X : Type) : Type :=
  emplace_into : AsyncValueRef -> X -> list (AsyncValue T) -> option (list (AsyncValue T)).

#[export] Instance Emplace_value : Emplace T | 10 := emplace.
#[export] Instance Emplace_Expected : Emplace (Expected T) | 5 := emplace_Expected.
End Futures.
Arguments Emplace T X : clear implicits.

(** ** The host: memory and work queue *)

Section Host.
(** [T] is the payload type of the async values at hand; [Env] is all
    the state that submitted closures capture by reference. *)
Context {T Env : Type}.

Record Memory : Type := { env : Env; heap : list (AsyncValue T) }.

(** A queued [llvm::unique_function<void()>]: it runs later, on the
    memory as it is then; [None] is an assertion failure. *)
Definition Task : Type := Memory -> option Memory.

(** Modelled from the spec: the work dispatcher of section 4.2, with a
    non-blocking lane that admits everything, a blocking lane that
    rejects work once saturated, and dedicated threads for immediate
    dispatch under a hard cap.  Stands for [ConcurrentWorkQueue], which
    is not in the source tree. *)
Record ConcurrentWorkQueue : Type := {
  nonblocking : list Task;
  blocking : list Task;
  max_blocking : nat;
  threads : list Task;
  max_threads : nat
}.

Record HostContext : Type := {
  memory : Memory;
  work_queue : ConcurrentWorkQueue
}.

(** Host computations: state passing, [None] on assertion failure. *)
Definition Host (A : Type) : Type := HostContext -> option (A * HostContext).

Definition hret {A} (a : A) : Host A := fun h => Some (a, h).

Definition hbind {A B} (m : Host A) (k : A -> Host B) : Host B :=
  fun h => match m h with
           | Some (a, h') => k a h'
           | None => None
           end.

Notation "'do' x <- m ;; k" := (hbind m (fun x => k))
  (at level 10, x name, m at level 99, k at level 200).

(** A call that touches the captured state alone. *)
Definition on_env {A} (f : Env -> A * Env) : Host A :=
  fun h =>
    let (a, e) := f (env (memory h)) in
    Some (a, {| memory := {| env := e; heap := heap (memory h) |};
                work_queue := work_queue h |}).

(** An operation on the heap alone, run now on the host's memory. *)
Definition on_heap
    (f : list (AsyncValue T) -> option (list (AsyncValue T))) : Host unit :=
  fun h =>
    match f (heap (memory h)) with
    | Some hp => Some (tt, {| memory := {| env := env (memory h); heap := hp |};
                              work_queue := work_queue h |})
    | None => None
    end.

(** Modelled from the spec: [allocate<T>()] "returns an unresolved
    future with one owning reference" (section 4.1).  Stands for
    [MakeUnconstructedAsyncValueRef<R>(host)] and [Result<T>::Allocate],
    neither of which is in the source tree. *)
Definition MakeUnconstructedAsyncValueRef : Host AsyncValueRef :=
  fun h =>
    Some ({| cell := length (heap (memory h)) |},
          {| memory := {| env := env (memory h);
                          heap := heap (memory h) ++ [Unresolved] |};
             work_queue := work_queue h |}).

Definition with_queue (h : HostContext) (q : ConcurrentWorkQueue) : HostContext :=
  {| memory := memory h; work_queue := q |}.

(** Modelled from the spec: non-blocking enqueue is "always accepted"
    (section 4.2).  Stands for the body of the [void EnqueueWork]
    declared in async_dispatch.h. *)
Definition EnqueueWork_void (work : Task) : Host unit :=
  fun h =>
    let q := work_queue h in
    Some (tt, with_queue h
                {| nonblocking := nonblocking q ++ [work];
                   blocking := blocking q; max_blocking := max_blocking q;
                   threads := threads q; max_threads := max_threads q |}).

(** Modelled from the spec: blocking-queued enqueue returns "false if
    the queue is saturated and cannot admit more work" (section 4.2).
    Stands for the body of the [bool EnqueueBlockingWork] declared in
    async_dispatch.h. *)
Definition EnqueueBlockingWork_void (work : Task) : Host bool :=
  fun h =>
    let q := work_queue h in
    if (length (blocking q) <? max_blocking q)%nat then
      Some (true, with_queue h
                    {| nonblocking := nonblocking q;
                       blocking := blocking q ++ [work]; max_blocking := max_blocking q;
                       threads := threads q; max_threads := max_threads q |})
    else Some (false, h).

(** Modelled from the spec: blocking-immediate dispatch hands the work
    to a dedicated thread and "returns false if the pool cannot provide
    a thread immediately (e.g., a hard cap on concurrent blocking
    threads reached)" (section 4.2).  Stands for the body of the
    [bool RunBlockingWork] declared in async_dispatch.h. *)
Definition RunBlockingWork_void (work : Task) : Host bool :=
  fun h =>
    let q := work_queue h in
    if (length (threads q) <? max_threads q)%nat then
      Some (true, with_queue h
                    {| nonblocking := nonblocking q;
                       blocking := blocking q; max_blocking := max_blocking q;
                       threads := threads q ++ [work]; max_threads := max_threads q |})
    else Some (false, h).

(** ** async_dispatch.h: the typed overloads

    The overloads on [const ExecutionContext&] and on [HostContext*] have
    the same body; one definition stands for both. *)

(** The closure [[result = result.CopyRef(), work]() mutable
    { result.emplace(work()); }]. *)
Definition emplace_work {X} `{Emplace T X}
    (result : AsyncValueRef) (work : Env -> X * Env) : Task :=
  fun m =>
    let (x, env') := work (env m) in
    match emplace_into result x (heap m) with
    | Some hp => Some {| env := env'; heap := hp |}
    | None => None
    end.

Definition EnqueueWork {X} `{Emplace T X} (work : Env -> X * Env)
  : Host AsyncValueRef :=
  do result <- MakeUnconstructedAsyncValueRef ;;
  do _ <- EnqueueWork_void (emplace_work result work) ;;
  hret result.

Definition EnqueueBlockingWork {X} `{Emplace T X} (work : Env -> X * Env)
  : Host AsyncValueRef :=
  do result <- MakeUnconstructedAsyncValueRef ;;
  do enqueued <- EnqueueBlockingWork_void (emplace_work result work) ;;
  do _ <- (if negb enqueued
           then on_heap (SetError result "Failed to enqueue blocking work.")
           else hret tt) ;;
  hret result.

Definition RunBlockingWork {X} `{Emplace T X} (work : Env -> X * Env)
  : Host AsyncValueRef :=
  do result <- MakeUnconstructedAsyncValueRef ;;
  do enqueued <- RunBlockingWork_void (emplace_work result work) ;;
  do _ <- (if negb enqueued
           then on_heap (SetError result "Failed to run blocking work.")
           else hret tt) ;;
  hret result.

End Host.
Arguments Memory : clear implicits.
Arguments Task : clear implicits.
Arguments ConcurrentWorkQueue : clear implicits.
Arguments HostContext : clear implicits.
Arguments Host : clear implicits.

Notation "'do' x <- m ;; k" := (hbind m (fun x => k))
  (at level 10, x name, m at level 99, k at level 200).

(** ** Fixed-width integers *)

Definition size_t_range (z : Z) : Prop := 0 <= z < 2 ^ 64.
Definition int64_range (z : Z) : Prop := - 2 ^ 63 <= z < 2 ^ 63.

(** Conversion of a 64-bit signed value to [size_t], as the usual
    arithmetic conversions do when the other operand is a [size_t]. *)
Definition to_size_t (z : Z) : Z := z mod 2 ^ 64.

(** ** The driver wrapper (cuda_wrapper.h is not in the source tree) *)

Inductive Platform : Type := NONE | CUDA | ROCm.

(** [wrapper::Pointer<T>]: a raw address tagged with its platform. *)
Record Pointer : Type := { raw : Z; platform : Platform }.

(** The calls that reach the driver, with their arguments. *)
Inductive DriverCall : Type :=
| CallEventQuery (event : Z)
| CallEventSynchronize (event : Z)
| CallCtxSetCurrent (context : Z)
| CallMemcpyAsync (current : Z) (dst src : Pointer) (count_bytes : Z) (stream : Z).

(** What the driver answers is left open: [D] is its state, and each
    entry point maps the arguments and the state to a result and a new
    state.  Handles (contexts, streams, events) are raw integers. *)
Class Driver (D : Type) : Type := {
  driver_EventQuery : Z -> D -> Expected bool * D;
  driver_EventSynchronize : Z -> D -> Error * D;
  driver_CtxSetCurrent : Z -> D -> Expected Z * D;
  driver_MemcpyAsync : Z -> Pointer -> Pointer -> Z -> Z -> D -> Error * D
}.

(** The device as the kernels see it: the driver and the record of the
    calls made to it, oldest first. *)
Record Device (D : Type) : Type := { driver : D; trace : list DriverCall }.
Arguments driver {D} _.
Arguments trace {D} _.

Definition traced {D A} (c : DriverCall) (f : D -> A * D) (d : Device D)
  : A * Device D :=
  let (a, s) := f (driver d) in
  (a, {| driver := s; trace := trace d ++ [c] |}).

Module wrapper.
Section Calls.
Context {D : Type} `{Driver D}.

Definition EventQuery (event : Z) : Device D -> Expected bool * Device D :=
  traced (CallEventQuery event) (driver_EventQuery event).

Definition EventSynchronize (event : Z) : Device D -> Error * Device D :=
  traced (CallEventSynchronize event) (driver_EventSynchronize event).

Definition CtxSetCurrent (context : Z) : Device D -> Expected Z * Device D :=
  traced (CallCtxSetCurrent context) (driver_CtxSetCurrent context).

Definition MemcpyAsync (current : Z) (dst src : Pointer) (count_bytes : Z)
    (stream : Z) : Device D -> Error * Device D :=
  traced (CallMemcpyAsync current dst src count_bytes stream)
         (driver_MemcpyAsync current dst src count_bytes stream).
End Calls.
End wrapper.

(** ** GPU types

    gpu_types.h, gpu_buffer.h and host_buffer.h are not in the source
    tree: each class is the record of what its accessors answer. *)

Module GpuContext.
Record t : Type := { get : Z; platform : Platform }.
End GpuContext.

Module GpuStream.
Record t : Type := { get : Z }.
End GpuStream.

Module GpuEvent.
Record t : Type := { get : Z }.
End GpuEvent.

(** [valid] is what [operator bool] answers; [size] is a [size_t]. *)
Module GpuBuffer.
Record t : Type := { valid : bool; pointer : Pointer; size : Z }.
End GpuBuffer.

Module HostBuffer.
Record t : Type := { data : Z; size : Z }.
End HostBuffer.

(** ** kernels.cc: tfrt_gpu.event.synchronize *)

Section EventSynchronize.
Context {D : Type} `{Driver D}.

Definition CudaEventSynchronizeSync (event : GpuEvent.t)
  : Device D -> Error * Device D :=
  wrapper.EventSynchronize (GpuEvent.get event).

(** The closure handed to [EnqueueBlockingWork]. *)
Definition synchronize_work (result : AsyncValueRef) (event : GpuEvent.t)
    (in_chain : Chain) : Task Chain (Device D) :=
  fun m =>
    let (error, env') := CudaEventSynchronizeSync event (env m) in
    match error with
    | Some e =>
        match SetError result (StrCat e) (heap m) with
        | Some hp => Some {| env := env'; heap := hp |}
        | None => None
        end
    | None =>
        match emplace result in_chain (heap m) with
        | Some hp => Some {| env := env'; heap := hp |}
        | None => None
        end
    end.

(** Returns the reference that [out_chain.Allocate()] produced. *)
Definition CudaEventSynchronizeAsync (event : GpuEvent.t) (in_chain : Chain)
  : Host Chain (Device D) AsyncValueRef :=
  do result <- MakeUnconstructedAsyncValueRef ;;
  do ready <- on_env (wrapper.EventQuery (GpuEvent.get event)) ;;
  match ready with
  | Unexpected e =>
      do _ <- on_heap (SetError result (StrCat e)) ;; hret result
  | Value true =>
      do _ <- on_heap (emplace result in_chain) ;; hret result
  | Value false =>
      do enqueued <- EnqueueBlockingWork_void (synchronize_work result event in_chain) ;;
      if negb enqueued
      then do _ <- on_heap (SetError result "Failed to enqueue blocking work.") ;;
           hret result
      else hret result
  end.
End EventSynchronize.

(** ** kernels.cc: memory copies *)

(** [src_size < copy_size] compares a [size_t] with an [int64_t]: the
    signed operand is converted to [size_t] first. *)
Definition CheckMemcpySizes (dst_size src_size copy_size : Z) : Error :=
  if (src_size <? to_size_t copy_size)%Z then
    Some (MakeStringError
            ("source buffer is smaller (" +:+ pretty src_size +:+
             ") than number of bytes to copy (" +:+ pretty copy_size +:+ ")"))
  else if (dst_size <? to_size_t copy_size)%Z then
    Some (MakeStringError
            ("destination buffer is smaller (" +:+ pretty dst_size +:+
             ") than number of bytes to copy (" +:+ pretty copy_size +:+ ")"))
  else None.

Section Memcpy.
Context {D : Type} `{Driver D}.

(** tfrt_gpu.mem.copy_host_to_device.  [MemcpyAsync] takes its count as
    a [size_t]: the [int64_t] is converted at the call. *)
Definition CudaMemcpyHtoD (context : GpuContext.t) (dst : GpuBuffer.t)
    (src : HostBuffer.t) (bytes_count : Z) (stream : GpuStream.t)
  : Device D -> Error * Device D :=
  fun d =>
    match CheckMemcpySizes (GpuBuffer.size dst) (HostBuffer.size src) bytes_count with
    | Some error => (Some error, d)
    | None =>
        let (current, d1) := wrapper.CtxSetCurrent (GpuContext.get context) d in
        match current with
        | Unexpected e => (Some e, d1)
        | Value cur =>
            wrapper.MemcpyAsync cur (GpuBuffer.pointer dst)
              {| raw := HostBuffer.data src; platform := GpuContext.platform context |}
              (to_size_t bytes_count) (GpuStream.get stream) d1
        end
    end.

(** tfrt_gpu.mem.copy_device_to_host *)
Definition CudaMemcpyDtoH (context : GpuContext.t) (dst : HostBuffer.t)
    (src : GpuBuffer.t) (bytes_count : Z) (stream : GpuStream.t)
  : Device D -> Error * Device D :=
  fun d =>
    match CheckMemcpySizes (HostBuffer.size dst) (GpuBuffer.size src) bytes_count with
    | Some error => (Some error, d)
    | None =>
        let (current, d1) := wrapper.CtxSetCurrent (GpuContext.get context) d in
        match current with
        | Unexpected e => (Some e, d1)
        | Value cur =>
            wrapper.MemcpyAsync cur
              {| raw := HostBuffer.data dst; platform := GpuContext.platform context |}
              (GpuBuffer.pointer src) (to_size_t bytes_count) (GpuStream.get stream) d1
        end
    end.
End Memcpy.

(** Buffers and handles for evaluation. *)
Definition context1 : GpuContext.t := {| GpuContext.get := 1; GpuContext.platform := CUDA |}.
Definition stream1 : GpuStream.t := {| GpuStream.get := 2 |}.
Definition gpu_buffer (size : Z) : GpuBuffer.t :=
  {| GpuBuffer.valid := true;
     GpuBuffer.pointer := {| raw := 4096; platform := CUDA |};
     GpuBuffer.size := size |}.
Definition host_buffer (size : Z) : HostBuffer.t :=
  {| HostBuffer.data := 8192; HostBuffer.size := size |}.
Definition device0 : Device (list Z) := {| driver := []; trace := [] |}.

(** ** kernels.cc: tfrt_gpu.tensor.make *)

(** tensor_shape.h is not in the source tree.  A shape is the record of
    what the kernel asks of it: [GetNumElements()], an [ssize_t], and its
    printed form. *)
Module TensorShape.
Record t : Type := { GetNumElements : Z; to_string : string }.
End TensorShape.

(** The element types for which kernels.cc registers
    [tfrt_gpu.tensor.make]: i8, i32, i64, f32, f64. *)
Inductive DType : Type := I8 | I32 | I64 | F32 | F64.

(** [GetDType<T>().GetHostSize()], a [size_t]: [sizeof(T)] (dtype.h is
    not in the source tree). *)
Definition GetHostSize (T : DType) : Z :=
  match T with
  | I8 => 1
  | I32 => 4
  | I64 => 8
  | F32 => 4
  | F64 => 8
  end.

(** [GpuCrtBuffer(pointer, size, deallocator)]; the deallocator only
    keeps the [GpuBuffer] alive and is left out. *)
Module GpuCrtBuffer.
Record t : Type := { pointer : Pointer; size : Z }.
End GpuCrtBuffer.

Module DenseGpuTensor.
Record t : Type := { shape : TensorShape.t; dtype : DType; buffer : GpuCrtBuffer.t }.
End DenseGpuTensor.

(** [ssize_t * size_t] is computed in [size_t]: the element count is
    converted and the product wraps modulo 2^64. *)
Definition CudaTensorMake (T : DType) (buffer : GpuBuffer.t) (shape : TensorShape.t)
  : Expected DenseGpuTensor.t :=
  if negb (GpuBuffer.valid buffer) then
    Unexpected (MakeStringError "Cannot make tensor from invalid (moved from?) buffer")
  else if negb (GpuBuffer.size buffer =?
                  (to_size_t (TensorShape.GetNumElements shape) * GetHostSize T)
                    mod 2 ^ 64)%Z then
    Unexpected (MakeStringError
      ("tfrt_gpu.tensor.make failed: buffer_size (" +:+ pretty (GpuBuffer.size buffer) +:+
       ") is not equal to the number of elements in shape (" +:+
       TensorShape.to_string shape +:+
       ") times element size (" +:+ pretty (GetHostSize T) +:+ ")"))
  else
    Value {| DenseGpuTensor.shape := shape;
             DenseGpuTensor.dtype := T;
             DenseGpuTensor.buffer :=
               {| GpuCrtBuffer.pointer := GpuBuffer.pointer buffer;
                  GpuCrtBuffer.size := GpuBuffer.size buffer |} |}.

(** The shape [[2305843009213693953]]: one dimension of 2^61 + 1
    elements. *)
Definition huge_shape : TensorShape.t :=
  {| TensorShape.GetNumElements := 2305843009213693953;
     TensorShape.to_string := "[2305843009213693953]" |}.

(** ** kernels.cc, test_kernels.cc: what goes through the adapter *)

(** The functions wrapped in [TFRT_WITH_CHAIN_RESULT] at registration,
    each with its declared return type. *)
Definition wrapped_kernels : list (string * CType) :=
  [ ("tfrt_gpu.init", TError);
    ("tfrt_gpu.event.record", TError);
    ("tfrt_gpu.mem.print_metadata", TVoid);
    ("tfrt_gpu.tensor.make.i8", TExpected (TNamed "DenseGpuTensor"));
    ("tfrt_gpu.tensor.make.i32", TExpected (TNamed "DenseGpuTensor"));
    ("tfrt_gpu.tensor.make.i64", TExpected (TNamed "DenseGpuTensor"));
    ("tfrt_gpu.tensor.make.f32", TExpected (TNamed "DenseGpuTensor"));
    ("tfrt_gpu.tensor.make.f64", TExpected (TNamed "DenseGpuTensor"));
    ("tfrt_gpu.tensor.print_metadata", TVoid);
    ("tfrt_gpu.mem.copy_host_to_device", TError);
    ("tfrt_gpu.mem.copy_device_to_host", TError);
    ("tfrt_gpu.function.launch", TError);
    ("tfrt_gpu_test.copy_tensor_host_to_device", TExpected (TNamed "GpuBuffer")) ].

(** [TFRT_WITH_CHAIN_RESULT(CudaMemcpyHtoD)], the kernel registered as
    tfrt_gpu.mem.copy_host_to_device. *)
Definition copy_host_to_device {D : Type} `{Driver D} :=
  Invoke_Error
    (fun (args : GpuContext.t * GpuBuffer.t * HostBuffer.t * Z * GpuStream.t) =>
       let '(context, dst, src, bytes_count, stream) := args in
       CudaMemcpyHtoD context dst src bytes_count stream).

(** [TFRT_WITH_CHAIN_RESULT(CudaTensorMake<T>)], the kernel registered as
    tfrt_gpu.tensor.make.*; the function is pure. *)
Definition tensor_make (T : DType) :=
  Invoke_Expected (Proc := unit)
    (fun (args : GpuBuffer.t * TensorShape.t) (u : unit) =>
       (CudaTensorMake T (fst args) (snd args), u)).

(** ** Concrete hosts, for evaluation *)

(** An empty host over integer futures whose lanes admit [max_blocking]
    queued and [max_threads] immediate blocking tasks. *)
Definition empty_host (max_blocking max_threads : nat) : HostContext Z unit :=
  {| memory := {| env := tt; heap := [] |};
     work_queue := {| nonblocking := []; blocking := []; max_blocking := max_blocking;
                      threads := []; max_threads := max_threads |} |}.

(** [[] { return 7; }] and [[]() -> Expected<int> { return 7; }] and a
    closure that fails. *)
Definition seven (e : unit) : Z * unit := (7, e).
Definition expected_seven (e : unit) : Expected Z * unit := (Value 7, e).
Definition failing (e : unit) : Expected Z * unit :=
  (Unexpected (MakeStringError "boom"), e).

(** A driver for evaluation: its state is the list of completed events;
    negative handles are invalid; synchronising completes the event. *)
Definition invalid_handle : ErrorInfo := MakeStringError "CUDA_ERROR_INVALID_HANDLE".

#[export] Instance list_driver : Driver (list Z) := {
  driver_EventQuery event done :=
    if (event <? 0)%Z then (Unexpected invalid_handle, done)
    else (Value (bool_decide (event ∈ done)), done);
  driver_EventSynchronize event done :=
    if (event <? 0)%Z then (Some invalid_handle, done) else (None, event :: done);
  driver_CtxSetCurrent context done :=
    if (context <? 0)%Z then (Unexpected invalid_handle, done) else (Value context, done);
  driver_MemcpyAsync current dst src count_bytes stream done := (None, done)
}.

(** A host over [Chain] futures on that driver, with event 5 completed
    and a blocking lane of the given capacity. *)
Definition chain_host (max_blocking : nat) : HostContext Chain (Device (list Z)) :=
  {| memory := {| env := {| driver := [5]; trace := [] |}; heap := [] |};
     work_queue := {| nonblocking := []; blocking := []; max_blocking := max_blocking;
                      threads := []; max_threads := 0 |} |}.

(** ** The rest of the driver wrapper (cuda_wrapper.h is not in the
    source tree) *)

Module StreamFlags.
Inductive t : Type := DEFAULT | NON_BLOCKING.
End StreamFlags.

Module EventFlags.
Inductive t : Type := DEFAULT | BLOCKING_SYNC | DISABLE_TIMING | INTERPROCESS.
End EventFlags.

(** Every call that reaches the driver or the allocator: the calls of
    [DriverCall], and those of the remaining kernels. *)
Inductive GpuCall : Type :=
| Wrapped (c : DriverCall)
| CallStreamSynchronize (stream : Z)
| CallStreamCreate (current : Z) (flags : StreamFlags.t)
| CallEventCreate (current : Z) (flags : EventFlags.t)
| CallLaunchKernel (current function : Z) (grid_dim block_dim : Z * Z * Z)
    (shared_memory_size_bytes : Z) (stream : Z) (arg_values : list Z)
| CallAllocate (allocator : Z) (size : Z) (stream : Z)
| CallMemcpy (current : Z) (dst src : Pointer) (count_bytes : Z).

(** The remaining entry points, answers left open as in [Driver].
    [driver_Allocate] stands for [GpuBuffer::Allocate]. *)
Class DriverX (D : Type) : Type := {
  driver_StreamSynchronize : Z -> D -> Error * D;
  driver_StreamCreate : Z -> StreamFlags.t -> D -> Expected Z * D;
  driver_EventCreate : Z -> EventFlags.t -> D -> Expected Z * D;
  driver_LaunchKernel :
    Z -> Z -> Z * Z * Z -> Z * Z * Z -> Z -> Z -> list Z -> D -> Error * D;
  driver_Allocate : Z -> Z -> Z -> D -> Expected GpuBuffer.t * D;
  driver_Memcpy : Z -> Pointer -> Pointer -> Z -> D -> Error * D
}.

(** The device with the record of all calls, oldest first. *)
Record Gpu (D : Type) : Type := { gpu_state : D; issued : list GpuCall }.
Arguments gpu_state {D} _.
Arguments issued {D} _.

(** A call of the first part of the wrapper, made on the full device. *)
Definition wrapped {D A} (f : Device D -> A * Device D) (g : Gpu D) : A * Gpu D :=
  let (a, d) := f {| driver := gpu_state g; trace := [] |} in
  (a, {| gpu_state := driver d; issued := issued g ++ map Wrapped (trace d) |}).

Definition issue {D A} (c : GpuCall) (f : D -> A * D) (g : Gpu D) : A * Gpu D :=
  let (a, s) := f (gpu_state g) in
  (a, {| gpu_state := s; issued := issued g ++ [c] |}).

Module wrapperX.
Section Calls.
Context {D : Type} `{Driver D} `{DriverX D}.

Definition CtxSetCurrent (context : Z) : Gpu D -> Expected Z * Gpu D :=
  wrapped (wrapper.CtxSetCurrent context).

Definition StreamSynchronize (stream : Z) : Gpu D -> Error * Gpu D :=
  issue (CallStreamSynchronize stream) (driver_StreamSynchronize stream).

Definition StreamCreate (current : Z) (flags : StreamFlags.t)
  : Gpu D -> Expected Z * Gpu D :=
  issue (CallStreamCreate current flags) (driver_StreamCreate current flags).

Definition EventCreate (current : Z) (flags : EventFlags.t)
  : Gpu D -> Expected Z * Gpu D :=
  issue (CallEventCreate current flags) (driver_EventCreate current flags).

Definition LaunchKernel (current function : Z) (grid_dim block_dim : Z * Z * Z)
    (shared_memory_size_bytes stream : Z) (arg_values : list Z)
  : Gpu D -> Error * Gpu D :=
  issue (CallLaunchKernel current function grid_dim block_dim
           shared_memory_size_bytes stream arg_values)
        (driver_LaunchKernel current function grid_dim block_dim
           shared_memory_size_bytes stream arg_values).

Definition Allocate (allocator size stream : Z)
  : Gpu D -> Expected GpuBuffer.t * Gpu D :=
  issue (CallAllocate allocator size stream) (driver_Allocate allocator size stream).

Definition Memcpy (current : Z) (dst src : Pointer) (count_bytes : Z)
  : Gpu D -> Error * Gpu D :=
  issue (CallMemcpy current dst src count_bytes)
        (driver_Memcpy current dst src count_bytes).
End Calls.
End wrapperX.

(** A [GpuStream] or [GpuEvent] holds the context it was created in:
    [resource] is what [get()] is read from, [owner] what [context()]
    is read from. *)
Record InContext (R : Type) : Type := { resource : R; owner : GpuContext.t }.
Arguments resource {R} _.
Arguments owner {R} _.

(** ** kernels.cc: creation of streams and events *)

Section Create.
Context {D : Type} `{Driver D} `{DriverX D}.

(** tfrt_gpu.stream.create *)
Definition CudaStreamCreate (context : GpuContext.t)
  : Gpu D -> Expected (InContext GpuStream.t) * Gpu D :=
  fun g =>
    let (current, g1) := wrapperX.CtxSetCurrent (GpuContext.get context) g in
    match current with
    | Unexpected e => (Unexpected e, g1)
    | Value cur =>
        let (stream, g2) := wrapperX.StreamCreate cur StreamFlags.NON_BLOCKING g1 in
        match stream with
        | Unexpected e => (Unexpected e, g2)
        | Value s =>
            (Value {| resource := {| GpuStream.get := s |}; owner := context |}, g2)
        end
    end.

(** tfrt_gpu.event.create *)
Definition CudaEventCreate (context : GpuContext.t)
  : Gpu D -> Expected (InContext GpuEvent.t) * Gpu D :=
  fun g =>
    let (current, g1) := wrapperX.CtxSetCurrent (GpuContext.get context) g in
    match current with
    | Unexpected e => (Unexpected e, g1)
    | Value cur =>
        let (event, g2) := wrapperX.EventCreate cur EventFlags.DISABLE_TIMING g1 in
        match event with
        | Unexpected e => (Unexpected e, g2)
        | Value ev =>
            (Value {| resource := {| GpuEvent.get := ev |}; owner := context |}, g2)
        end
    end.
End Create.

(** ** kernels.cc: tfrt_gpu.stream.synchronize *)

Section StreamSynchronize.
Context {D : Type} `{DriverX D}.

Definition CudaStreamSynchronizeSync (stream : GpuStream.t)
  : Gpu D -> Error * Gpu D :=
  issue (CallStreamSynchronize (GpuStream.get stream))
        (driver_StreamSynchronize (GpuStream.get stream)).

(** The closure handed to [EnqueueBlockingWork]. *)
Definition stream_synchronize_work (result : AsyncValueRef) (stream : GpuStream.t)
    (in_chain : Chain) : Task Chain (Gpu D) :=
  fun m =>
    let (error, env') := CudaStreamSynchronizeSync stream (env m) in
    match error with
    | Some e =>
        match SetError result (StrCat e) (heap m) with
        | Some hp => Some {| env := env'; heap := hp |}
        | None => None
        end
    | None =>
        match emplace result in_chain (heap m) with
        | Some hp => Some {| env := env'; heap := hp |}
        | None => None
        end
    end.

(** Returns the reference that [out_chain.Allocate()] produced. *)
Definition CudaStreamSynchronizeAsync (stream : GpuStream.t) (in_chain : Chain)
  : Host Chain (Gpu D) AsyncValueRef :=
  do result <- MakeUnconstructedAsyncValueRef ;;
  do enqueued <- EnqueueBlockingWork_void
                   (stream_synchronize_work result stream in_chain) ;;
  if negb enqueued
  then do _ <- on_heap (SetError result "Failed to enqueue blocking work.") ;;
       hret result
  else hret result.
End StreamSynchronize.

(** ** kernels.cc: tfrt_gpu.function.launch *)

Definition int32_range (z : Z) : Prop := - 2 ^ 31 <= z < 2 ^ 31.

(** One of the [RemainingArguments]: an async value holding a
    [GpuBuffer], one holding an [int32_t], or one of any other type. *)
Inductive KernelArg : Type :=
| ArgGpuBuffer (buffer : GpuBuffer.t)
| ArgInt32 (value : Z)
| ArgOther.

(** The loop that materialises the kernel arguments.  Each value is a
    [uintptr_t]: the raw address of a buffer, or the [int32_t]
    converted.  The first argument of another type ends the launch. *)
Fixpoint push_arg_values (arg_values : list Z) (args : list KernelArg)
  : Expected (list Z) :=
  match args with
  | [] => Value arg_values
  | arg :: rest =>
      match arg with
      | ArgGpuBuffer buffer =>
          push_arg_values (arg_values ++ [raw (GpuBuffer.pointer buffer)]) rest
      | ArgInt32 value =>
          push_arg_values (arg_values ++ [to_size_t value]) rest
      | ArgOther => Unexpected (MakeStringError "Unsupported argument type")
      end
  end.

(** The [uintptr_t] that one argument contributes, if its type is one
    of the two the loop knows. *)
Definition arg_value (arg : KernelArg) : option Z :=
  match arg with
  | ArgGpuBuffer buffer => Some (raw (GpuBuffer.pointer buffer))
  | ArgInt32 value => Some (to_size_t value)
  | ArgOther => None
  end.

Section Launch.
Context {D : Type} `{Driver D} `{DriverX D}.

(** [arg_pointers] holds one pointer per element of [arg_values], in
    order; the driver is handed the values they point to. *)
Definition CudaFunctionLaunch (stream : InContext GpuStream.t) (function : Z)
    (grid_dim_x grid_dim_y grid_dim_z block_dim_x block_dim_y block_dim_z : Z)
    (shared_memory_size_bytes : Z) (chain : Chain) (args : list KernelArg)
  : Gpu D -> Error * Gpu D :=
  fun g =>
    let (current, g1) :=
      wrapperX.CtxSetCurrent (GpuContext.get (owner stream)) g in
    match current with
    | Unexpected e => (Some e, g1)
    | Value cur =>
        match push_arg_values [] args with
        | Unexpected e => (Some e, g1)
        | Value arg_values =>
            wrapperX.LaunchKernel cur function
              (grid_dim_x, grid_dim_y, grid_dim_z)
              (block_dim_x, block_dim_y, block_dim_z)
              shared_memory_size_bytes (GpuStream.get (resource stream))
              arg_values g1
        end
    end.
End Launch.

(** ** test_kernels.cc: tfrt_gpu_test.copy_tensor_host_to_device *)

(** dense_host_tensor.h is not in the source tree: a tensor is the
    record of what [data()] and [DataSizeInBytes()] answer. *)
Module DenseHostTensor.
Record t : Type := { data : Z; DataSizeInBytes : Z }.
End DenseHostTensor.

Section TestKernels.
Context {D : Type} `{Driver D} `{DriverX D}.

Definition TestCpyTensorHtoD (context : GpuContext.t) (allocator : Z)
    (stream : GpuStream.t) (src : DenseHostTensor.t)
  : Gpu D -> Expected GpuBuffer.t * Gpu D :=
  fun g =>
    let size_bytes := DenseHostTensor.DataSizeInBytes src in
    let (buffer, g1) :=
      wrapperX.Allocate allocator size_bytes (GpuStream.get stream) g in
    match buffer with
    | Unexpected e => (Unexpected e, g1)
    | Value b =>
        let (current, g2) := wrapperX.CtxSetCurrent (GpuContext.get context) g1 in
        match current with
        | Unexpected e => (Unexpected e, g2)
        | Value cur =>
            let (error, g3) :=
              wrapperX.Memcpy cur (GpuBuffer.pointer b)
                {| raw := DenseHostTensor.data src;
                   platform := GpuContext.platform context |}
                size_bytes g2 in
            match error with
            | Some e => (Unexpected e, g3)
            | None => (Value b, g3)
            end
        end
    end.
End TestKernels.

(** The rest of the driver for evaluation: streams and events are
    numbered from the context, launches succeed, negative handles are
    invalid, a copy from the null address fails, and the allocator hands
    out address 65536. *)
#[export] Instance list_driverX : DriverX (list Z) := {
  driver_StreamSynchronize stream done :=
    if (stream <? 0)%Z then (Some invalid_handle, done) else (None, done);
  driver_StreamCreate current flags done :=
    if (current <? 0)%Z then (Unexpected invalid_handle, done)
    else (Value (current + 100), done);
  driver_EventCreate current flags done :=
    if (current <? 0)%Z then (Unexpected invalid_handle, done)
    else (Value (current + 200), done);
  driver_LaunchKernel current function grid_dim block_dim shared stream args done :=
    if (function <? 0)%Z then (Some invalid_handle, done) else (None, done);
  driver_Allocate allocator size stream done :=
    if (allocator <? 0)%Z then (Unexpected invalid_handle, done)
    else (Value {| GpuBuffer.valid := true;
                   GpuBuffer.pointer := {| raw := 65536; platform := CUDA |};
                   GpuBuffer.size := size |}, done);
  driver_Memcpy current dst src count_bytes done :=
    if (raw src =? 0)%Z then (Some invalid_handle, done) else (None, done)
}.

Definition gpu0 : Gpu (list Z) := {| gpu_state := []; issued := [] |}.

(** A host over [Chain] futures on the full device, with a blocking lane
    of the given capacity. *)
Definition gpu_host (max_blocking : nat) : HostContext Chain (Gpu (list Z)) :=
  {| memory := {| env := gpu0; heap := [] |};
     work_queue := {| nonblocking := []; blocking := []; max_blocking := max_blocking;
                      threads := []; max_threads := 0 |} |}.

Definition stream_in_context1 : InContext GpuStream.t :=
  {| resource := stream1; owner := context1 |}.

(* ================================================================== *)
(** * Part II.  Theorems *)
(* ================================================================== *)

Lemma tuple_last_cat {Ts : list Type} {U : Type} (t : tuple Ts) (u : U) :
  tuple_last (tuple_cat t (make_tuple1 u)) = u.
Proof.
  induction Ts as [|T Ts IH]; simpl; [reflexivity|].
  destruct t as [x t']; simpl. apply IH.
Qed.

Lemma tuple_init_cat {Ts : list Type} {U : Type} (t : tuple Ts) (u : U) :
  tuple_init (tuple_cat t (make_tuple1 u)) = t.
Proof.
  induction Ts as [|T Ts IH]; simpl.
  - destruct t; reflexivity.
  - destruct t as [x t']; simpl. f_equal. apply IH.
Qed.

(** ** kernels.h: the adapter *)

(** What is observable once [sync_func_ptr] has been called exactly once
    with [args]: its final process state, and one more recorded call. *)
Lemma call_once {Proc Args R} (f : Args -> Proc -> R * Proc) (args : Args)
    (o : Observed Proc Args) :
  call f args o =
    (fst (f args (proc o)),
     {| proc := snd (f args (proc o)); calls := calls o ++ [args] |}).
Proof. unfold call. destruct (f args (proc o)); reflexivity. Qed.

(** C1.  Whatever the supported return shape, [Invoke] calls the wrapped
    function exactly once, in line, with the arguments it was given, and
    changes the process state (work queue included) only through that
    call; when the function succeeds the result is the function's result
    followed by one [Chain{}] as last element. *)
Theorem Invoke_calls_once_and_appends_Chain :
  forall (Proc Args : Type) (args : Args) (o : Observed Proc Args),
    (forall f : Args -> Proc -> unit * Proc,
        Invoke_void f args o =
          (MkChain, {| proc := snd (f args (proc o)); calls := calls o ++ [args] |}))
    /\ (forall f : Args -> Proc -> Error * Proc,
        snd (Invoke_Error f args o) =
          {| proc := snd (f args (proc o)); calls := calls o ++ [args] |}
        /\ (fst (f args (proc o)) = None ->
            fst (Invoke_Error f args o) = Value MkChain))
    /\ (forall (Result : Type) (f : Args -> Proc -> Expected Result * Proc),
        snd (Invoke_Expected f args o) =
          {| proc := snd (f args (proc o)); calls := calls o ++ [args] |}
        /\ (forall r, fst (f args (proc o)) = Value r ->
            fst (Invoke_Expected f args o) = Value (r, (MkChain, tt))))
    /\ (forall (Results : list Type) (f : Args -> Proc -> Expected (tuple Results) * Proc),
        snd (Invoke_Expected_tuple f args o) =
          {| proc := snd (f args (proc o)); calls := calls o ++ [args] |}
        /\ (forall t, fst (f args (proc o)) = Value t ->
            exists t', fst (Invoke_Expected_tuple f args o) = Value t'
                       /\ tuple_init t' = t /\ tuple_last t' = MkChain)).
Proof.
  intros Proc Args args o. split; [|split; [|split]].
  - intros f. unfold Invoke_void, bind, ret. rewrite call_once. reflexivity.
  - intros f. unfold Invoke_Error, bind, ret. rewrite call_once. split.
    + destruct (fst (f args (proc o))); reflexivity.
    + intros ->. reflexivity.
  - intros Result f. unfold Invoke_Expected, bind, ret. rewrite call_once. split.
    + destruct (fst (f args (proc o))); reflexivity.
    + intros r ->. reflexivity.
  - intros Results f. unfold Invoke_Expected_tuple, bind, ret. rewrite call_once. split.
    + destruct (fst (f args (proc o))); reflexivity.
    + intros t ->. eexists. split; [reflexivity|].
      split; [apply tuple_init_cat | apply tuple_last_cat].
Qed.

Lemma Invoke_calls_once_and_appends_Chain_witness :
  fst (Invoke_Error (fun (x : Z) (n : nat) => (@None ErrorInfo, S n)) 41
         {| proc := 0%nat; calls := [] |}) = Value MkChain
  /\ fst (Invoke_Expected (fun (x : Z) (n : nat) => (Value (x + 1), S n)) 41
         {| proc := 0%nat; calls := [] |}) = Value (42, (MkChain, tt))
  /\ exists t', fst (Invoke_Expected_tuple (Results := [Z : Type; bool : Type])
                  (fun (x : Z) (n : nat) => (Value (x, (true, tt)), S n)) 41
                  {| proc := 0%nat; calls := [] |}) = Value t'
                /\ tuple_init t' = (41, (true, tt)) /\ tuple_last t' = MkChain.
Proof.
  destruct (Invoke_calls_once_and_appends_Chain nat Z 41 {| proc := 0%nat; calls := [] |})
    as (_ & HE & HX & HT).
  split; [|split].
  - apply (proj2 (HE (fun (x : Z) (n : nat) => (@None ErrorInfo, S n)))). reflexivity.
  - apply (proj2 (HX Z (fun (x : Z) (n : nat) => (Value (x + 1), S n))) 42). reflexivity.
  - apply (proj2 (HT [Z : Type; bool : Type]
                    (fun (x : Z) (n : nat) => (Value (x, (true, tt)), S n)))
             (41, (true, tt))).
    reflexivity.
Defined.

(** The registered copy kernel on a source that is too small: one call,
    the error of the size check, no [Chain], no driver call. *)
Example copy_host_to_device_too_small :
  copy_host_to_device (context1, gpu_buffer 16, host_buffer 8, 12, stream1)
    {| proc := device0; calls := [] |} =
  (Unexpected (MakeStringError
                 "source buffer is smaller (8) than number of bytes to copy (12)"),
   {| proc := device0;
      calls := [(context1, gpu_buffer 16, host_buffer 8, 12, stream1)] |}).
Proof. vm_compute. reflexivity. Qed.

(** The registered tensor kernel on a buffer of the right size: the
    tensor, then the [Chain]. *)
Example tensor_make_f32 :
  fst (tensor_make F32
         (gpu_buffer 24, {| TensorShape.GetNumElements := 6;
                            TensorShape.to_string := "[2, 3]" |})
         {| proc := tt; calls := [] |}) =
  Value ({| DenseGpuTensor.shape := {| TensorShape.GetNumElements := 6;
                                       TensorShape.to_string := "[2, 3]" |};
            DenseGpuTensor.dtype := F32;
            DenseGpuTensor.buffer :=
              {| GpuCrtBuffer.pointer := {| raw := 4096; platform := CUDA |};
                 GpuCrtBuffer.size := 24 |} |},
         (MkChain, tt)).
Proof. vm_compute. reflexivity. Qed.

(** C4.  When the wrapped function fails, [Invoke] returns the very error
    the function returned and its result holds no value, hence no
    [Chain]. *)
Theorem Invoke_forwards_the_error :
  forall (Proc Args : Type) (args : Args) (o : Observed Proc Args) (e : ErrorInfo),
    (forall f : Args -> Proc -> Error * Proc,
        fst (f args (proc o)) = Some e ->
        fst (Invoke_Error f args o) = Unexpected e
        /\ has_value (fst (Invoke_Error f args o)) = false)
    /\ (forall (Result : Type) (f : Args -> Proc -> Expected Result * Proc),
        fst (f args (proc o)) = Unexpected e ->
        fst (Invoke_Expected f args o) = Unexpected e
        /\ has_value (fst (Invoke_Expected f args o)) = false)
    /\ (forall (Results : list Type) (f : Args -> Proc -> Expected (tuple Results) * Proc),
        fst (f args (proc o)) = Unexpected e ->
        fst (Invoke_Expected_tuple f args o) = Unexpected e
        /\ has_value (fst (Invoke_Expected_tuple f args o)) = false).
Proof.
  intros Proc Args args o e. split; [|split].
  - intros f. unfold Invoke_Error, bind, ret. rewrite call_once.
    intros ->. split; reflexivity.
  - intros Result f. unfold Invoke_Expected, bind, ret. rewrite call_once.
    intros ->. split; reflexivity.
  - intros Results f. unfold Invoke_Expected_tuple, bind, ret. rewrite call_once.
    intros ->. split; reflexivity.
Qed.

Lemma Invoke_forwards_the_error_witness :
  fst (Invoke_Error (fun (x : Z) (n : nat) => (Some (MakeStringError "boom"), n)) 1
         {| proc := 0%nat; calls := [] |}) = Unexpected (MakeStringError "boom")
  /\ fst (Invoke_Expected (Result := Z)
            (fun (x : Z) (n : nat) => (Unexpected (MakeStringError "boom"), n)) 1
            {| proc := 0%nat; calls := [] |}) = Unexpected (MakeStringError "boom")
  /\ fst (Invoke_Expected_tuple (Results := [Z : Type])
            (fun (x : Z) (n : nat) => (Unexpected (MakeStringError "boom"), n)) 1
            {| proc := 0%nat; calls := [] |}) = Unexpected (MakeStringError "boom").
Proof.
  destruct (Invoke_forwards_the_error nat Z 1 {| proc := 0%nat; calls := [] |}
              (MakeStringError "boom")) as (HE & HX & HT).
  split; [|split].
  - apply (HE (fun (x : Z) (n : nat) => (Some (MakeStringError "boom"), n))). reflexivity.
  - apply (HX Z (fun (x : Z) (n : nat) => (Unexpected (MakeStringError "boom"), n))).
    reflexivity.
  - apply (HT [Z : Type] (fun (x : Z) (n : nat) => (Unexpected (MakeStringError "boom"), n))).
    reflexivity.
Defined.

(** Every function that the sources wrap has a specialisation; none of
    them returns a plain value. *)
Lemma wrapped_kernels_convertible :
  Forall (fun k => convertible (snd k)) wrapped_kernels.
Proof.
  unfold wrapped_kernels.
  repeat (constructor; [unfold convertible; simpl; eauto|]).
  constructor.
Qed.

(** C5, as the specification states it, fails: a function returning a
    plain value, here [int32_t], has no specialisation to go through. *)
Lemma plain_value_is_not_convertible :
  ~ (forall Ret : CType,
        (Ret = TVoid \/ Ret = TError \/ (exists name, Ret = TNamed name)
         \/ (exists V, Ret = TExpected V)) ->
        convertible Ret).
Proof.
  intros H.
  destruct (H (TNamed "int32_t")) as [s Hs]; [right; right; left; eauto|].
  discriminate Hs.
Qed.

(** C5, amended.  The adapter is defined for exactly the return types
    [void], [Error] and [Expected<V>], the last split into
    [Expected<std::tuple<...>>] and every other [Expected<V>]; the choice
    is a function of the declared return type alone, and in the
    [Expected] cases the result tuple ends with [Chain]. *)
Theorem WithChainResult_shapes :
  forall Ret : CType,
    (convertible Ret <->
       (Ret = TVoid \/ Ret = TError \/ exists V, Ret = TExpected V))
    /\ (Ret = TVoid ->
        WithChainResult Ret = Some ReturnsVoid /\ Invoke_type ReturnsVoid = TChain)
    /\ (Ret = TError ->
        WithChainResult Ret = Some ReturnsError
        /\ Invoke_type ReturnsError = TExpected TChain)
    /\ (forall Results, Ret = TExpected (TTuple Results) ->
        WithChainResult Ret = Some (ReturnsExpectedTuple Results)
        /\ Invoke_type (ReturnsExpectedTuple Results)
           = TExpected (TTuple (Results ++ [TChain])))
    /\ (forall V, Ret = TExpected V -> (forall Results, V <> TTuple Results) ->
        WithChainResult Ret = Some (ReturnsExpected V)
        /\ Invoke_type (ReturnsExpected V) = TExpected (TTuple [V; TChain]))
    /\ (forall s, WithChainResult Ret = Some s ->
        Invoke_type s = TChain
        \/ Invoke_type s = TExpected TChain
        \/ exists Ts, Invoke_type s = TExpected (TTuple Ts) /\ last Ts = Some TChain).
Proof.
  intros Ret. split; [|split; [|split; [|split; [|split]]]].
  - split.
    + intros [s Hs]. destruct Ret; try discriminate Hs; eauto.
    + intros [-> | [-> | [V ->]]]; unfold convertible; simpl; eauto.
      destruct V; eauto.
  - intros ->. split; reflexivity.
  - intros ->. split; reflexivity.
  - intros Results ->. split; reflexivity.
  - intros V -> HV. split; [|reflexivity].
    destruct V; try reflexivity. exfalso. eapply HV. reflexivity.
  - intros s _. destruct s as [| |Result|Results]; simpl; auto.
    + right; right. exists [Result; TChain]. split; reflexivity.
    + right; right. exists (Results ++ [TChain]). split; [reflexivity|].
      apply last_snoc.
Qed.

Lemma WithChainResult_shapes_witness :
  convertible (TExpected (TNamed "GpuBuffer"))
  /\ WithChainResult TVoid = Some ReturnsVoid
  /\ WithChainResult TError = Some ReturnsError
  /\ WithChainResult (TExpected (TTuple [TNamed "int32_t"]))
     = Some (ReturnsExpectedTuple [TNamed "int32_t"])
  /\ WithChainResult (TExpected (TNamed "GpuBuffer"))
     = Some (ReturnsExpected (TNamed "GpuBuffer"))
  /\ (Invoke_type (ReturnsExpected (TNamed "GpuBuffer")) = TChain
      \/ Invoke_type (ReturnsExpected (TNamed "GpuBuffer")) = TExpected TChain
      \/ exists Ts,
           Invoke_type (ReturnsExpected (TNamed "GpuBuffer")) = TExpected (TTuple Ts)
           /\ last Ts = Some TChain).
Proof.
  split; [|split; [|split; [|split; [|split]]]].
  - apply (proj1 (WithChainResult_shapes _)). right; right; eauto.
  - apply (proj1 (proj2 (WithChainResult_shapes TVoid))); reflexivity.
  - apply (proj1 (proj2 (proj2 (WithChainResult_shapes TError)))); reflexivity.
  - apply (proj1 (proj2 (proj2 (proj2 (WithChainResult_shapes _)))) [TNamed "int32_t"]).
    reflexivity.
  - apply (proj1 (proj2 (proj2 (proj2 (proj2 (WithChainResult_shapes _)))))
             (TNamed "GpuBuffer")).
    + reflexivity.
    + intros Results; discriminate.
  - apply (proj2 (proj2 (proj2 (proj2 (proj2
             (WithChainResult_shapes (TExpected (TNamed "GpuBuffer")))))))).
    reflexivity.
Defined.

(** ** Heap lemmas *)

Section HeapFacts.
Context {T : Type}.
Implicit Types (h : list (AsyncValue T)) (a : AsyncValue T).

Lemma lookup_fresh h a : (h ++ [a]) !! length h = Some a.
Proof. rewrite lookup_app_r by lia. rewrite Nat.sub_diag. reflexivity. Qed.

Lemma resolve_fresh h a :
  resolve {| cell := length h |} a (h ++ [Unresolved]) = Some (h ++ [a]).
Proof.
  unfold resolve; simpl. rewrite lookup_fresh. f_equal.
  rewrite insert_app_r_alt by lia. rewrite Nat.sub_diag. reflexivity.
Qed.

Lemma resolve_unresolved r a h :
  h !! cell r = Some Unresolved ->
  resolve r a h = Some (<[cell r := a]> h)
  /\ <[cell r := a]> h !! cell r = Some a.
Proof.
  intros Hu. unfold resolve. rewrite Hu. split; [reflexivity|].
  apply list_lookup_insert_eq. eapply lookup_lt_Some; eassumption.
Qed.

Lemma resolve_resolved r a h : h !! cell r <> Some Unresolved -> resolve r a h = None.
Proof.
  intros Hn. unfold resolve. destruct (h !! cell r) as [[| |]|]; congruence.
Qed.

(** Single assignment: once a cell holds a value or an error, a second
    [emplace] or [SetError] on it is refused. *)
Lemma resolve_twice r a b h h' :
  a <> Unresolved -> resolve r a h = Some h' -> resolve r b h' = None.
Proof.
  intros Ha Hres. apply resolve_resolved.
  unfold resolve in Hres.
  destruct (h !! cell r) as [[| |]|] eqn:Hl; try discriminate Hres.
  injection Hres as <-.
  rewrite list_lookup_insert_eq by (eapply lookup_lt_Some; eassumption).
  congruence.
Qed.
End HeapFacts.

(** ** async_dispatch.h: what each call does to the host *)

Section DispatchFacts.
Context {T Env X : Type} {E : Emplace T X}.
Implicit Types (h : HostContext T Env) (work : Env -> X * Env) (m : Memory T Env).

Lemma alloc_eq h :
  MakeUnconstructedAsyncValueRef h =
    Some ({| cell := length (heap (memory h)) |},
          {| memory := {| env := env (memory h);
                          heap := heap (memory h) ++ [Unresolved] |};
             work_queue := work_queue h |}).
Proof. reflexivity. Qed.

Lemma alloc_inv h r h0 :
  MakeUnconstructedAsyncValueRef h = Some (r, h0) ->
  r = {| cell := length (heap (memory h)) |}
  /\ env (memory h0) = env (memory h)
  /\ heap (memory h0) = heap (memory h) ++ [Unresolved]
  /\ work_queue h0 = work_queue h
  /\ heap (memory h0) !! cell r = Some Unresolved.
Proof.
  rewrite alloc_eq. intros [= <- <-]. simpl.
  repeat (split; [reflexivity|]). apply lookup_fresh.
Qed.

Lemma EnqueueWork_void_eq (task : Task T Env) h :
  exists h', EnqueueWork_void task h = Some (tt, h')
             /\ memory h' = memory h
             /\ nonblocking (work_queue h') = nonblocking (work_queue h) ++ [task]
             /\ blocking (work_queue h') = blocking (work_queue h)
             /\ threads (work_queue h') = threads (work_queue h).
Proof. eexists. split; [reflexivity|]. simpl. auto. Qed.

Lemma EnqueueBlockingWork_void_inv (task : Task T Env) h b h' :
  EnqueueBlockingWork_void task h = Some (b, h') ->
  memory h' = memory h
  /\ nonblocking (work_queue h') = nonblocking (work_queue h)
  /\ threads (work_queue h') = threads (work_queue h)
  /\ blocking (work_queue h') =
       (if b then blocking (work_queue h) ++ [task] else blocking (work_queue h))
  /\ (b = false -> h' = h).
Proof.
  unfold EnqueueBlockingWork_void.
  destruct (_ <? _)%nat; intros [= <- <-]; simpl; auto 6.
  repeat split; auto. discriminate.
Qed.

Lemma RunBlockingWork_void_inv (task : Task T Env) h b h' :
  RunBlockingWork_void task h = Some (b, h') ->
  memory h' = memory h
  /\ nonblocking (work_queue h') = nonblocking (work_queue h)
  /\ blocking (work_queue h') = blocking (work_queue h)
  /\ threads (work_queue h') =
       (if b then threads (work_queue h) ++ [task] else threads (work_queue h))
  /\ (b = false -> h' = h).
Proof.
  unfold RunBlockingWork_void.
  destruct (_ <? _)%nat; intros [= <- <-]; simpl; auto 6.
  repeat split; auto. discriminate.
Qed.

Lemma on_heap_SetError_fresh h0 r msg :
  heap (memory h0) !! cell r = Some Unresolved ->
  exists h1,
    on_heap (SetError r msg) h0 = Some (tt, h1)
    /\ heap (memory h1) !! cell r = Some (HasError (MakeStringError msg))
    /\ env (memory h1) = env (memory h0)
    /\ work_queue h1 = work_queue h0.
Proof.
  intros Hu. unfold on_heap, SetError.
  destruct (resolve_unresolved r (HasError (MakeStringError msg)) _ Hu) as [-> Hl].
  eexists. split; [reflexivity|]. simpl. auto.
Qed.

(** Running the queued closure on a memory where the future is still
    unresolved: the closure's result goes through [emplace]. *)
Lemma emplace_work_run r work m :
  emplace_work r work m =
    match emplace_into r (fst (work (env m))) (heap m) with
    | Some hp => Some {| env := snd (work (env m)); heap := hp |}
    | None => None
    end.
Proof. unfold emplace_work. destruct (work (env m)); reflexivity. Qed.
End DispatchFacts.

(** C2.  When the bool-returning [EnqueueBlockingWork] or
    [RunBlockingWork] turns the closure down, the typed overload still
    returns, and the future it returns is already resolved with the
    submission error; the closure has not run and nothing was queued. *)
Theorem rejected_blocking_work_resolves_the_future :
  forall (T Env X : Type) (E : Emplace T X) (work : Env -> X * Env)
         (h h0 : HostContext T Env) (r : AsyncValueRef),
    MakeUnconstructedAsyncValueRef h = Some (r, h0) ->
    (forall h1,
        EnqueueBlockingWork_void (emplace_work r work) h0 = Some (false, h1) ->
        exists h',
          EnqueueBlockingWork work h = Some (r, h')
          /\ heap (memory h') !! cell r =
               Some (HasError (MakeStringError "Failed to enqueue blocking work."))
          /\ env (memory h') = env (memory h)
          /\ work_queue h' = work_queue h)
    /\ (forall h1,
        RunBlockingWork_void (emplace_work r work) h0 = Some (false, h1) ->
        exists h',
          RunBlockingWork work h = Some (r, h')
          /\ heap (memory h') !! cell r =
               Some (HasError (MakeStringError "Failed to run blocking work."))
          /\ env (memory h') = env (memory h)
          /\ work_queue h' = work_queue h).
Proof.
  intros T Env X E work h h0 r Halloc.
  destruct (alloc_inv _ _ _ Halloc) as (Hr & Henv & Hheap & Hq & Hu).
  split; intros h1 Hrej.
  - destruct (EnqueueBlockingWork_void_inv _ _ _ _ Hrej) as (_ & _ & _ & _ & Hsame).
    rewrite (Hsame eq_refl) in Hrej.
    destruct (on_heap_SetError_fresh h0 r "Failed to enqueue blocking work." Hu)
      as (h' & Hset & Hcell & Henv' & Hq').
    exists h'. unfold EnqueueBlockingWork, hbind. rewrite Halloc, Hrej. simpl.
    rewrite Hset. simpl. repeat split; congruence.
  - destruct (RunBlockingWork_void_inv _ _ _ _ Hrej) as (_ & _ & _ & _ & Hsame).
    rewrite (Hsame eq_refl) in Hrej.
    destruct (on_heap_SetError_fresh h0 r "Failed to run blocking work." Hu)
      as (h' & Hset & Hcell & Henv' & Hq').
    exists h'. unfold RunBlockingWork, hbind. rewrite Halloc, Hrej. simpl.
    rewrite Hset. simpl. repeat split; congruence.
Qed.

Lemma rejected_blocking_work_resolves_the_future_witness :
  (exists h',
      EnqueueBlockingWork seven (empty_host 0 0) = Some ({| cell := 0 |}, h')
      /\ heap (memory h') !! 0%nat =
           Some (HasError (MakeStringError "Failed to enqueue blocking work."))
      /\ env (memory h') = tt
      /\ work_queue h' = work_queue (empty_host 0 0))
  /\ (exists h',
      RunBlockingWork seven (empty_host 0 0) = Some ({| cell := 0 |}, h')
      /\ heap (memory h') !! 0%nat =
           Some (HasError (MakeStringError "Failed to run blocking work."))
      /\ env (memory h') = tt
      /\ work_queue h' = work_queue (empty_host 0 0)).
Proof.
  destruct (rejected_blocking_work_resolves_the_future Z unit Z _ seven
              (empty_host 0 0) _ _ eq_refl) as [HB HR].
  split.
  - apply (HB _ eq_refl).
  - apply (HR _ eq_refl).
Defined.

(** Running the closure of a typed overload resolves the future with
    what the work returned: a value as a value, an [Expected] as its
    value or as its error. *)
Lemma emplace_work_value {T Env : Type} (r : AsyncValueRef)
    (work : Env -> T * Env) (m : Memory T Env) :
  heap m !! cell r = Some Unresolved ->
  exists m',
    emplace_work r work m = Some m'
    /\ heap m' !! cell r = Some (HasValue (fst (work (env m))))
    /\ env m' = snd (work (env m)).
Proof.
  intros Hu. rewrite emplace_work_run.
  unfold emplace_into, Emplace_value, emplace.
  destruct (resolve_unresolved r (HasValue (fst (work (env m)))) _ Hu) as [-> Hl].
  eexists. split; [reflexivity|]. simpl. auto.
Qed.

Lemma emplace_work_Expected {T Env : Type} (r : AsyncValueRef)
    (work : Env -> Expected T * Env) (m : Memory T Env) :
  heap m !! cell r = Some Unresolved ->
  exists m',
    emplace_work r work m = Some m'
    /\ heap m' !! cell r =
         Some (match fst (work (env m)) with
               | Value v => HasValue v
               | Unexpected e => HasError e
               end)
    /\ env m' = snd (work (env m)).
Proof.
  intros Hu. rewrite emplace_work_run.
  unfold emplace_into, Emplace_Expected, emplace_Expected, emplace.
  destruct (fst (work (env m))) as [v|e].
  - destruct (resolve_unresolved r (HasValue v) _ Hu) as [-> Hl].
    eexists. split; [reflexivity|]. simpl. auto.
  - destruct (resolve_unresolved r (HasError e) _ Hu) as [-> Hl].
    eexists. split; [reflexivity|]. simpl. auto.
Qed.

(** C3, as the specification states it, fails on the rejection path: on
    a blocking lane that admits one task, the first typed
    [EnqueueBlockingWork] returns an unresolved future and the second one
    returns a future that is already resolved, with the submission
    error. *)
Lemma rejected_submission_returns_resolved_future :
  exists r1 h1 r2 h2,
    EnqueueBlockingWork seven (empty_host 1 0) = Some (r1, h1)
    /\ heap (memory h1) !! cell r1 = Some Unresolved
    /\ EnqueueBlockingWork seven h1 = Some (r2, h2)
    /\ heap (memory h2) !! cell r2 =
         Some (HasError (MakeStringError "Failed to enqueue blocking work."))
    /\ heap (memory h2) !! cell r2 <> Some Unresolved.
Proof.
  do 4 eexists.
  split; [reflexivity|]. split; [reflexivity|].
  split; [reflexivity|]. split; [reflexivity|]. discriminate.
Qed.

(** C3, amended.  Every typed overload returns an [AsyncValueRef<R>] at
    once, [R] being the closure's return type less one [Expected]; the
    future is unresolved on return whenever the submission was accepted,
    which it always is for [EnqueueWork]; the closure sits in the lane of
    its policy, and running it resolves the future with the value the
    work returned, or, for work returning [Expected<R>], with the value
    on success and with the error on failure. *)
Theorem typed_overloads_resolve_with_the_result :
  forall (T Env : Type) (h h0 : HostContext T Env) (r : AsyncValueRef),
    MakeUnconstructedAsyncValueRef h = Some (r, h0) ->
    (forall (X : Type) (E : Emplace T X) (work : Env -> X * Env),
        (exists h',
            EnqueueWork work h = Some (r, h')
            /\ heap (memory h') !! cell r = Some Unresolved
            /\ nonblocking (work_queue h') =
                 nonblocking (work_queue h) ++ [emplace_work r work])
        /\ (forall h1,
            EnqueueBlockingWork_void (emplace_work r work) h0 = Some (true, h1) ->
            EnqueueBlockingWork work h = Some (r, h1)
            /\ heap (memory h1) !! cell r = Some Unresolved
            /\ blocking (work_queue h1) =
                 blocking (work_queue h) ++ [emplace_work r work])
        /\ (forall h1,
            RunBlockingWork_void (emplace_work r work) h0 = Some (true, h1) ->
            RunBlockingWork work h = Some (r, h1)
            /\ heap (memory h1) !! cell r = Some Unresolved
            /\ threads (work_queue h1) =
                 threads (work_queue h) ++ [emplace_work r work]))
    /\ (forall (work : Env -> T * Env) (m : Memory T Env),
        heap m !! cell r = Some Unresolved ->
        exists m',
          emplace_work r work m = Some m'
          /\ heap m' !! cell r = Some (HasValue (fst (work (env m))))
          /\ env m' = snd (work (env m)))
    /\ (forall (work : Env -> Expected T * Env) (m : Memory T Env),
        heap m !! cell r = Some Unresolved ->
        exists m',
          emplace_work r work m = Some m'
          /\ heap m' !! cell r =
               Some (match fst (work (env m)) with
                     | Value v => HasValue v
                     | Unexpected e => HasError e
                     end)
          /\ env m' = snd (work (env m)))
    /\ (forall R : CType, AsyncResultTypeT (TExpected R) = R)
    /\ (forall F : CType, is_Expected F = false -> AsyncResultTypeT F = F)
    /\ (forall F : CType, is_void (AsyncResultTypeT F) = false ->
        typed_overload F = Some (TAsyncValueRef (AsyncResultTypeT F))).
Proof.
  intros T Env h h0 r Halloc.
  destruct (alloc_inv _ _ _ Halloc) as (Hr & Henv & Hheap & Hq & Hu).
  split; [|split; [|split; [|split; [|split]]]].
  - intros X E work. split; [|split].
    + destruct (EnqueueWork_void_eq (emplace_work r work) h0)
        as (h' & Henq & Hmem & Hnb & _).
      exists h'. unfold EnqueueWork, hbind. rewrite Halloc, Henq. simpl.
      split; [reflexivity|]. rewrite Hmem, Hnb, Hq. auto.
    + intros h1 Hacc.
      destruct (EnqueueBlockingWork_void_inv _ _ _ _ Hacc) as (Hmem & _ & _ & Hb & _).
      unfold EnqueueBlockingWork, hbind. rewrite Halloc, Hacc. simpl.
      split; [reflexivity|]. rewrite Hmem, Hb, Hq. auto.
    + intros h1 Hacc.
      destruct (RunBlockingWork_void_inv _ _ _ _ Hacc) as (Hmem & _ & _ & Hb & _).
      unfold RunBlockingWork, hbind. rewrite Halloc, Hacc. simpl.
      split; [reflexivity|]. rewrite Hmem, Hb, Hq. auto.
  - intros work m. apply emplace_work_value.
  - intros work m. apply emplace_work_Expected.
  - reflexivity.
  - intros F HF. destruct F; try reflexivity. discriminate HF.
  - intros F HF. unfold typed_overload. rewrite HF. reflexivity.
Qed.

Lemma typed_overloads_resolve_with_the_result_witness :
  (exists h1,
      EnqueueBlockingWork seven (empty_host 1 1) = Some ({| cell := 0 |}, h1)
      /\ heap (memory h1) !! 0%nat = Some Unresolved)
  /\ (exists h1,
      RunBlockingWork seven (empty_host 1 1) = Some ({| cell := 0 |}, h1)
      /\ heap (memory h1) !! 0%nat = Some Unresolved)
  /\ (exists m',
      emplace_work {| cell := 0 |} seven {| env := tt; heap := [Unresolved] |} = Some m'
      /\ heap m' !! 0%nat = Some (HasValue 7))
  /\ (exists m',
      emplace_work {| cell := 0 |} failing {| env := tt; heap := [Unresolved] |} = Some m'
      /\ heap m' !! 0%nat = Some (HasError (MakeStringError "boom")))
  /\ AsyncResultTypeT (TNamed "int") = TNamed "int"
  /\ typed_overload (TExpected (TNamed "int")) = Some (TAsyncValueRef (TNamed "int")).
Proof.
  destruct (typed_overloads_resolve_with_the_result Z unit (empty_host 1 1) _ _ eq_refl)
    as (Hcalls & Hval & Hexp & _ & Hplain & Htyped).
  destruct (Hcalls Z _ seven) as (_ & HB & HR).
  split; [|split; [|split; [|split; [|split]]]].
  - eexists. destruct (HB _ eq_refl) as (H1 & H2 & _). split; [exact H1 | exact H2].
  - eexists. destruct (HR _ eq_refl) as (H1 & H2 & _). split; [exact H1 | exact H2].
  - destruct (Hval seven {| env := tt; heap := [Unresolved] |} eq_refl) as (m' & H1 & H2 & _).
    exists m'. split; [exact H1 | exact H2].
  - destruct (Hexp failing {| env := tt; heap := [Unresolved] |} eq_refl)
      as (m' & H1 & H2 & _).
    exists m'. split; [exact H1 | exact H2].
  - apply Hplain. reflexivity.
  - apply Htyped. reflexivity.
Defined.

(** C6.  Non-blocking enqueue cannot be turned down: the void form
    returns nothing and always queues the closure; the typed form always
    returns a fresh future that is unresolved on return, queues exactly
    the closure that resolves it, and touches nothing else.  Running that
    closure stores the work's value, and stores an error only when the
    work itself returned that error. *)
Theorem EnqueueWork_is_always_accepted :
  forall (T Env : Type) (h : HostContext T Env),
    (forall task : Task T Env,
        exists h',
          EnqueueWork_void task h = Some (tt, h')
          /\ memory h' = memory h
          /\ nonblocking (work_queue h') = nonblocking (work_queue h) ++ [task])
    /\ (forall (X : Type) (E : Emplace T X) (work : Env -> X * Env),
        exists h',
          EnqueueWork work h = Some ({| cell := length (heap (memory h)) |}, h')
          /\ heap (memory h') = heap (memory h) ++ [Unresolved]
          /\ env (memory h') = env (memory h)
          /\ nonblocking (work_queue h') =
               nonblocking (work_queue h)
               ++ [emplace_work {| cell := length (heap (memory h)) |} work]
          /\ blocking (work_queue h') = blocking (work_queue h)
          /\ threads (work_queue h') = threads (work_queue h))
    /\ (forall (r : AsyncValueRef) (work : Env -> T * Env) (m : Memory T Env),
        heap m !! cell r = Some Unresolved ->
        exists m',
          emplace_work r work m = Some m'
          /\ heap m' !! cell r = Some (HasValue (fst (work (env m)))))
    /\ (forall (r : AsyncValueRef) (work : Env -> Expected T * Env)
               (m m' : Memory T Env) (e : ErrorInfo),
        heap m !! cell r = Some Unresolved ->
        emplace_work r work m = Some m' ->
        heap m' !! cell r = Some (HasError e) ->
        fst (work (env m)) = Unexpected e).
Proof.
  intros T Env h. split; [|split; [|split]].
  - intros task. destruct (EnqueueWork_void_eq task h) as (h' & H1 & H2 & H3 & _).
    exists h'. auto.
  - intros X E work.
    destruct (alloc_inv h _ _ (alloc_eq h)) as (_ & Henv & Hheap & Hq & _).
    set (h0 := {| memory := {| env := env (memory h);
                                heap := heap (memory h) ++ [Unresolved] |};
                  work_queue := work_queue h |}) in *.
    destruct (EnqueueWork_void_eq
                (emplace_work {| cell := length (heap (memory h)) |} work) h0)
      as (h' & Henq & Hmem & Hnb & Hb & Ht).
    exists h'. unfold EnqueueWork, hbind. rewrite alloc_eq. fold h0. rewrite Henq.
    split; [reflexivity|]. rewrite Hmem, Hnb, Hb, Ht. simpl. auto 6.
  - intros r work m Hu.
    destruct (emplace_work_value r work m Hu) as (m' & H1 & H2 & _). eauto.
  - intros r work m m' e Hu Hrun Herr.
    destruct (emplace_work_Expected r work m Hu) as (m1 & H1 & H2 & _).
    rewrite Hrun in H1. injection H1 as <-. rewrite Herr in H2.
    destruct (fst (work (env m))); congruence.
Qed.

Lemma EnqueueWork_is_always_accepted_witness :
  (exists m',
      emplace_work {| cell := 0 |} seven {| env := tt; heap := [Unresolved] |} = Some m'
      /\ heap m' !! 0%nat = Some (HasValue 7))
  /\ fst (failing tt) = Unexpected (MakeStringError "boom").
Proof.
  destruct (EnqueueWork_is_always_accepted Z unit (empty_host 0 0))
    as (_ & _ & Hval & Hexp).
  split.
  - apply (Hval {| cell := 0 |} seven {| env := tt; heap := [Unresolved] |}). reflexivity.
  - apply (Hexp {| cell := 0 |} failing {| env := tt; heap := [Unresolved] |}
             {| env := tt; heap := [HasError (MakeStringError "boom")] |}).
    + reflexivity.
    + reflexivity.
    + reflexivity.
Defined.

(** ** kernels.cc: tfrt_gpu.event.synchronize *)

Lemma StrCat_round (e : ErrorInfo) : MakeStringError (StrCat e) = e.
Proof. destruct e; reflexivity. Qed.

Section EventSynchronizeFacts.
Context {D : Type} {Drv : Driver D}.
Implicit Types (h : HostContext Chain (Device D)) (m : Memory Chain (Device D)).

(** The host right after [out_chain.Allocate()] and [EventQuery]. *)
Lemma CudaEventSynchronizeAsync_unfold event in_chain h :
  let r := {| cell := length (heap (memory h)) |} in
  let d := env (memory h) in
  let ready := fst (driver_EventQuery (GpuEvent.get event) (driver d)) in
  let d' := {| driver := snd (driver_EventQuery (GpuEvent.get event) (driver d));
               trace := trace d ++ [CallEventQuery (GpuEvent.get event)] |} in
  let h1 := {| memory := {| env := d'; heap := heap (memory h) ++ [Unresolved] |};
               work_queue := work_queue h |} in
  CudaEventSynchronizeAsync event in_chain h =
    match ready with
    | Unexpected e =>
        (do _ <- on_heap (SetError r (StrCat e)) ;; hret r) h1
    | Value true =>
        (do _ <- on_heap (emplace r in_chain) ;; hret r) h1
    | Value false =>
        (do enqueued <- EnqueueBlockingWork_void (synchronize_work r event in_chain) ;;
         if negb enqueued
         then do _ <- on_heap (SetError r "Failed to enqueue blocking work.") ;; hret r
         else hret r) h1
    end.
Proof.
  intros r d ready d' h1.
  unfold CudaEventSynchronizeAsync, hbind at 1 2. rewrite alloc_eq.
  unfold on_env, wrapper.EventQuery, traced. simpl.
  subst ready d' h1 d r.
  destruct (driver_EventQuery (GpuEvent.get event) (driver (env (memory h))))
    as [ready s]. simpl.
  destruct ready as [[|]|e]; reflexivity.
Qed.

Lemma on_heap_resolve_fresh (hp : list (AsyncValue Chain)) (d : Device D)
    (q : ConcurrentWorkQueue Chain (Device D)) (a : AsyncValue Chain) :
  on_heap (resolve {| cell := length hp |} a)
    {| memory := {| env := d; heap := hp ++ [Unresolved] |}; work_queue := q |}
  = Some (tt, {| memory := {| env := d; heap := hp ++ [a] |}; work_queue := q |}).
Proof. unfold on_heap; simpl. rewrite resolve_fresh. reflexivity. Qed.

Lemma synchronize_work_run r event in_chain m :
  heap m !! cell r = Some Unresolved ->
  exists m',
    synchronize_work r event in_chain m = Some m'
    /\ heap m' !! cell r =
         Some (match fst (driver_EventSynchronize (GpuEvent.get event) (driver (env m))) with
               | None => HasValue in_chain
               | Some e => HasError e
               end)
    /\ trace (env m') = trace (env m) ++ [CallEventSynchronize (GpuEvent.get event)].
Proof.
  intros Hu.
  unfold synchronize_work, CudaEventSynchronizeSync, wrapper.EventSynchronize, traced.
  destruct (driver_EventSynchronize (GpuEvent.get event) (driver (env m)))
    as [error s]. simpl.
  destruct error as [e|].
  - unfold SetError. rewrite StrCat_round.
    destruct (resolve_unresolved r (HasError e) _ Hu) as [-> Hl].
    eexists. split; [reflexivity|]. simpl. auto.
  - unfold emplace.
    destruct (resolve_unresolved r (HasValue in_chain) _ Hu) as [-> Hl].
    eexists. split; [reflexivity|]. simpl. auto.
Qed.
End EventSynchronizeFacts.

(** C8.  [CudaEventSynchronizeAsync] queries the event first.  A failed
    query resolves the output chain with that error, a completed event
    resolves it in line with the input chain, and in both cases the work
    queue is untouched.  For a pending event the kernel hands its closure
    to [EnqueueBlockingWork]: if that accepts, the closure is the one
    task added to the blocking lane and the output chain is left
    unresolved; if it refuses, no lane changes and the output chain
    holds the enqueue error.  A pending event is the only case in which
    the work queue can change.  The closure, when run, calls
    [EventSynchronize] on the event exactly once and resolves the output
    chain with the input chain if that succeeds and with its error
    otherwise. *)
Theorem CudaEventSynchronizeAsync_paths :
  forall (D : Type) (Drv : Driver D) (event : GpuEvent.t) (in_chain : Chain)
         (h : HostContext Chain (Device D)),
    let r := {| cell := length (heap (memory h)) |} in
    let ready := fst (driver_EventQuery (GpuEvent.get event) (driver (env (memory h)))) in
    (forall e, ready = Unexpected e ->
        exists h',
          CudaEventSynchronizeAsync event in_chain h = Some (r, h')
          /\ heap (memory h') = heap (memory h) ++ [HasError e]
          /\ work_queue h' = work_queue h)
    /\ (ready = Value true ->
        exists h',
          CudaEventSynchronizeAsync event in_chain h = Some (r, h')
          /\ heap (memory h') = heap (memory h) ++ [HasValue in_chain]
          /\ work_queue h' = work_queue h)
    /\ (ready = Value false ->
        forall enqueued h2,
          EnqueueBlockingWork_void (synchronize_work r event in_chain)
            {| memory :=
                 {| env :=
                      {| driver := snd (driver_EventQuery (GpuEvent.get event)
                                          (driver (env (memory h))));
                         trace := trace (env (memory h))
                                  ++ [CallEventQuery (GpuEvent.get event)] |};
                    heap := heap (memory h) ++ [Unresolved] |};
               work_queue := work_queue h |} = Some (enqueued, h2) ->
          enqueued =
            (length (blocking (work_queue h)) <? max_blocking (work_queue h))%nat
          /\ exists h',
               CudaEventSynchronizeAsync event in_chain h = Some (r, h')
               /\ nonblocking (work_queue h') = nonblocking (work_queue h)
               /\ threads (work_queue h') = threads (work_queue h)
               /\ (if enqueued
                   then h' = h2
                        /\ blocking (work_queue h') =
                             blocking (work_queue h)
                             ++ [synchronize_work r event in_chain]
                        /\ heap (memory h') = heap (memory h) ++ [Unresolved]
                   else work_queue h' = work_queue h
                        /\ heap (memory h') =
                             heap (memory h)
                             ++ [HasError (MakeStringError
                                             "Failed to enqueue blocking work.")]))
    /\ (forall r' h',
        CudaEventSynchronizeAsync event in_chain h = Some (r', h') ->
        work_queue h' <> work_queue h -> ready = Value false)
    /\ (forall m : Memory Chain (Device D),
        heap m !! cell r = Some Unresolved ->
        exists m',
          synchronize_work r event in_chain m = Some m'
          /\ heap m' !! cell r =
               Some (match fst (driver_EventSynchronize (GpuEvent.get event)
                                  (driver (env m))) with
                     | None => HasValue in_chain
                     | Some e => HasError e
                     end)
          /\ trace (env m') =
               trace (env m) ++ [CallEventSynchronize (GpuEvent.get event)]
          /\ driver (env m') =
               snd (driver_EventSynchronize (GpuEvent.get event) (driver (env m)))).
Proof.
  intros D Drv event in_chain h r ready.
  pose proof (CudaEventSynchronizeAsync_unfold event in_chain h) as Hun.
  cbv zeta in Hun. fold r in Hun. fold ready in Hun.
  assert (Hfail : forall e, ready = Unexpected e ->
            exists h', CudaEventSynchronizeAsync event in_chain h = Some (r, h')
                       /\ heap (memory h') = heap (memory h) ++ [HasError e]
                       /\ work_queue h' = work_queue h).
  { intros e He. rewrite Hun, He. unfold hbind, SetError.
    subst r. rewrite on_heap_resolve_fresh, StrCat_round.
    eexists. split; [reflexivity|]. simpl. auto. }
  assert (Hdone : ready = Value true ->
            exists h', CudaEventSynchronizeAsync event in_chain h = Some (r, h')
                       /\ heap (memory h') = heap (memory h) ++ [HasValue in_chain]
                       /\ work_queue h' = work_queue h).
  { intros He. rewrite Hun, He. unfold hbind, emplace.
    subst r. rewrite on_heap_resolve_fresh.
    eexists. split; [reflexivity|]. simpl. auto. }
  split; [exact Hfail|]. split; [exact Hdone|]. split; [|split].
  - intros He enqueued h2 Henq. rewrite Hun, He. unfold hbind. rewrite Henq.
    unfold EnqueueBlockingWork_void in Henq. cbn [work_queue memory] in Henq.
    destruct (length (blocking (work_queue h)) <? max_blocking (work_queue h))%nat;
      injection Henq as <- <-; (split; [reflexivity|]).
    + eexists. split; [reflexivity|]. simpl. auto 6.
    + cbn [negb]. unfold SetError. subst r. rewrite on_heap_resolve_fresh.
      eexists. split; [reflexivity|]. simpl. auto 6.
  - intros r' h' Hrun Hq. destruct ready as [[|]|e] eqn:He; [|reflexivity|].
    + destruct (Hdone eq_refl) as (h2 & H2 & _ & Hq2). congruence.
    + destruct (Hfail e eq_refl) as (h2 & H2 & _ & Hq2). congruence.
  - intros m Hu.
    destruct (synchronize_work_run r event in_chain m Hu) as (m' & H1 & H2 & H3).
    exists m'. split; [exact H1|]. split; [exact H2|]. split; [exact H3|].
    unfold synchronize_work, CudaEventSynchronizeSync, wrapper.EventSynchronize,
      traced in H1.
    destruct (driver_EventSynchronize (GpuEvent.get event) (driver (env m)))
      as [[e|] s]; simpl in H1 |- *.
    + destruct (SetError r (StrCat e) (heap m)); [|discriminate].
      injection H1 as <-. reflexivity.
    + destruct (emplace r in_chain (heap m)); [|discriminate].
      injection H1 as <-. reflexivity.
Qed.

Lemma CudaEventSynchronizeAsync_paths_witness :
  (exists h',
      CudaEventSynchronizeAsync {| GpuEvent.get := -1 |} MkChain (chain_host 1)
        = Some ({| cell := 0 |}, h')
      /\ heap (memory h') = [HasError invalid_handle]
      /\ work_queue h' = work_queue (chain_host 1))
  /\ (exists h',
      CudaEventSynchronizeAsync {| GpuEvent.get := 5 |} MkChain (chain_host 1)
        = Some ({| cell := 0 |}, h')
      /\ heap (memory h') = [HasValue MkChain]
      /\ work_queue h' = work_queue (chain_host 1))
  /\ (exists h',
      CudaEventSynchronizeAsync {| GpuEvent.get := 3 |} MkChain (chain_host 1)
        = Some ({| cell := 0 |}, h')
      /\ blocking (work_queue h')
         = [synchronize_work {| cell := 0 |} {| GpuEvent.get := 3 |} MkChain]
      /\ heap (memory h') = [Unresolved])
  /\ (exists h',
      CudaEventSynchronizeAsync {| GpuEvent.get := 3 |} MkChain (chain_host 0)
        = Some ({| cell := 0 |}, h')
      /\ work_queue h' = work_queue (chain_host 0)
      /\ heap (memory h')
         = [HasError (MakeStringError "Failed to enqueue blocking work.")])
  /\ fst (driver_EventQuery 3 [5]) = Value false
  /\ (exists m',
      synchronize_work {| cell := 0 |} {| GpuEvent.get := 3 |} MkChain
        {| env := {| driver := [5]; trace := [] |}; heap := [Unresolved] |} = Some m'
      /\ heap m' !! 0%nat = Some (HasValue MkChain)
      /\ trace (env m') = [CallEventSynchronize 3]).
Proof.
  split; [|split; [|split; [|split; [|split]]]].
  - destruct (CudaEventSynchronizeAsync_paths (list Z) _ {| GpuEvent.get := -1 |}
                MkChain (chain_host 1)) as (Hfail & _).
    apply (Hfail invalid_handle). reflexivity.
  - destruct (CudaEventSynchronizeAsync_paths (list Z) _ {| GpuEvent.get := 5 |}
                MkChain (chain_host 1)) as (_ & Hdone & _).
    apply Hdone. reflexivity.
  - destruct (CudaEventSynchronizeAsync_paths (list Z) _ {| GpuEvent.get := 3 |}
                MkChain (chain_host 1)) as (_ & _ & Hpend & _).
    destruct (Hpend eq_refl true _ eq_refl) as (_ & h' & Hrun & _ & _ & _ & Hb & Hh).
    exists h'. split; [exact Hrun|]. split; [exact Hb | exact Hh].
  - destruct (CudaEventSynchronizeAsync_paths (list Z) _ {| GpuEvent.get := 3 |}
                MkChain (chain_host 0)) as (_ & _ & Hpend & _).
    destruct (Hpend eq_refl false _ eq_refl) as (_ & h' & Hrun & _ & _ & Hq & Hh).
    exists h'. split; [exact Hrun|]. split; [exact Hq | exact Hh].
  - destruct (CudaEventSynchronizeAsync_paths (list Z) _ {| GpuEvent.get := 3 |}
                MkChain (chain_host 1)) as (_ & _ & _ & Honly & _).
    eapply Honly; [reflexivity|]. simpl. intros Heq. discriminate Heq.
  - destruct (CudaEventSynchronizeAsync_paths (list Z) _ {| GpuEvent.get := 3 |}
                MkChain (chain_host 1)) as (_ & _ & _ & _ & Hwork).
    destruct (Hwork {| env := {| driver := [5]; trace := [] |}; heap := [Unresolved] |}
                eq_refl) as (m' & H1 & H2 & H3 & _).
    exists m'. split; [exact H1|]. split; [exact H2 | exact H3].
Defined.

(** ** kernels.cc: memory copies *)

Lemma to_size_t_nonneg z : 0 <= z < 2 ^ 64 -> to_size_t z = z.
Proof. intros Hz. unfold to_size_t. apply Z.mod_small. exact Hz. Qed.

Lemma to_size_t_neg z : - 2 ^ 63 <= z < 0 -> to_size_t z = z + 2 ^ 64.
Proof.
  intros Hz. unfold to_size_t.
  rewrite <- (Z_mod_plus_full z 1 (2 ^ 64)). rewrite Z.mul_1_l.
  apply Z.mod_small. lia.
Qed.

(** Within the ranges of the C++ types, the unsigned comparison is never
    more lenient than the comparison of the mathematical values. *)
Lemma size_ge_converted size count :
  size_t_range size -> int64_range count ->
  (size <? to_size_t count) = false -> count <= size.
Proof.
  unfold size_t_range, int64_range. intros Hs Hc Hlt.
  apply Z.ltb_ge in Hlt.
  destruct (Z_lt_le_dec count 0) as [Hneg|Hpos]; [lia|].
  rewrite to_size_t_nonneg in Hlt by lia. exact Hlt.
Qed.

Lemma size_lt_converted size count :
  size_t_range size -> int64_range count ->
  size < count -> (size <? to_size_t count) = true.
Proof.
  unfold size_t_range, int64_range. intros Hs Hc Hlt.
  apply Z.ltb_lt. rewrite to_size_t_nonneg by lia. exact Hlt.
Qed.

Lemma CheckMemcpySizes_source dst_size src_size copy_size :
  size_t_range src_size -> int64_range copy_size ->
  src_size < copy_size ->
  CheckMemcpySizes dst_size src_size copy_size =
    Some (MakeStringError
            ("source buffer is smaller (" +:+ pretty src_size +:+
             ") than number of bytes to copy (" +:+ pretty copy_size +:+ ")")).
Proof.
  intros Hs Hc Hlt. unfold CheckMemcpySizes.
  rewrite (size_lt_converted _ _ Hs Hc Hlt). reflexivity.
Qed.

Lemma CheckMemcpySizes_destination dst_size src_size copy_size :
  size_t_range dst_size -> size_t_range src_size -> int64_range copy_size ->
  copy_size <= src_size -> dst_size < copy_size ->
  CheckMemcpySizes dst_size src_size copy_size =
    Some (MakeStringError
            ("destination buffer is smaller (" +:+ pretty dst_size +:+
             ") than number of bytes to copy (" +:+ pretty copy_size +:+ ")")).
Proof.
  intros Hd Hs Hc Hle Hlt. unfold CheckMemcpySizes.
  rewrite (size_lt_converted _ _ Hd Hc Hlt).
  assert (Hsrc : (src_size <? to_size_t copy_size) = false).
  { apply Z.ltb_ge. unfold size_t_range, int64_range in *.
    rewrite to_size_t_nonneg by lia. exact Hle. }
  rewrite Hsrc. reflexivity.
Qed.

Lemma CheckMemcpySizes_success dst_size src_size copy_size :
  size_t_range dst_size -> size_t_range src_size -> int64_range copy_size ->
  CheckMemcpySizes dst_size src_size copy_size = None ->
  copy_size <= src_size /\ copy_size <= dst_size.
Proof.
  intros Hd Hs Hc. unfold CheckMemcpySizes.
  destruct (src_size <? to_size_t copy_size) eqn:Hsrc; [discriminate|].
  destruct (dst_size <? to_size_t copy_size) eqn:Hdst; [discriminate|].
  intros _. split; eapply size_ge_converted; eauto.
Qed.

(** A negative byte count converts to at least 2^63 and is refused by
    the source check for every buffer a process can hold. *)
Lemma CheckMemcpySizes_negative dst_size src_size copy_size :
  0 <= src_size < 2 ^ 63 -> - 2 ^ 63 <= copy_size < 0 ->
  CheckMemcpySizes dst_size src_size copy_size =
    Some (MakeStringError
            ("source buffer is smaller (" +:+ pretty src_size +:+
             ") than number of bytes to copy (" +:+ pretty copy_size +:+ ")")).
Proof.
  intros Hs Hc. unfold CheckMemcpySizes.
  rewrite to_size_t_neg by exact Hc.
  destruct (Z.ltb_spec src_size (copy_size + 2 ^ 64)); [reflexivity|lia].
Qed.

Lemma CheckMemcpySizes_fits dst_size src_size copy_size :
  0 <= copy_size -> copy_size <= src_size -> copy_size <= dst_size ->
  size_t_range src_size -> size_t_range dst_size ->
  CheckMemcpySizes dst_size src_size copy_size = None.
Proof.
  unfold size_t_range. intros H0 Hs Hd Hrs Hrd. unfold CheckMemcpySizes.
  rewrite to_size_t_nonneg by lia.
  destruct (Z.ltb_spec src_size copy_size); [lia|].
  destruct (Z.ltb_spec dst_size copy_size); [lia|]. reflexivity.
Qed.

Section MemcpyFacts.
Context {D : Type} {Drv : Driver D}.

(** Past the size check, the kernel switches context and, if that
    worked, hands the copy to the driver. *)
Lemma CudaMemcpyHtoD_checked context dst src bytes_count stream (d : Device D) :
  CheckMemcpySizes (GpuBuffer.size dst) (HostBuffer.size src) bytes_count = None ->
  trace (snd (CudaMemcpyHtoD context dst src bytes_count stream d)) =
    trace d ++
    CallCtxSetCurrent (GpuContext.get context) ::
    match fst (driver_CtxSetCurrent (GpuContext.get context) (driver d)) with
    | Value cur =>
        [CallMemcpyAsync cur (GpuBuffer.pointer dst)
           {| raw := HostBuffer.data src; platform := GpuContext.platform context |}
           (to_size_t bytes_count) (GpuStream.get stream)]
    | Unexpected _ => []
    end.
Proof.
  intros Hok. unfold CudaMemcpyHtoD. rewrite Hok.
  unfold wrapper.CtxSetCurrent, wrapper.MemcpyAsync, traced.
  destruct (driver_CtxSetCurrent (GpuContext.get context) (driver d)) as [[cur|e] s];
    simpl; [|reflexivity].
  destruct (driver_MemcpyAsync _ _ _ _ _ s). simpl.
  rewrite <- app_assoc. reflexivity.
Qed.

Lemma CudaMemcpyDtoH_checked context dst src bytes_count stream (d : Device D) :
  CheckMemcpySizes (HostBuffer.size dst) (GpuBuffer.size src) bytes_count = None ->
  trace (snd (CudaMemcpyDtoH context dst src bytes_count stream d)) =
    trace d ++
    CallCtxSetCurrent (GpuContext.get context) ::
    match fst (driver_CtxSetCurrent (GpuContext.get context) (driver d)) with
    | Value cur =>
        [CallMemcpyAsync cur
           {| raw := HostBuffer.data dst; platform := GpuContext.platform context |}
           (GpuBuffer.pointer src) (to_size_t bytes_count) (GpuStream.get stream)]
    | Unexpected _ => []
    end.
Proof.
  intros Hok. unfold CudaMemcpyDtoH. rewrite Hok.
  unfold wrapper.CtxSetCurrent, wrapper.MemcpyAsync, traced.
  destruct (driver_CtxSetCurrent (GpuContext.get context) (driver d)) as [[cur|e] s];
    simpl; [|reflexivity].
  destruct (driver_MemcpyAsync _ _ _ _ _ s). simpl.
  rewrite <- app_assoc. reflexivity.
Qed.

Lemma CudaMemcpyHtoD_refused context dst src bytes_count stream (d : Device D) e :
  CheckMemcpySizes (GpuBuffer.size dst) (HostBuffer.size src) bytes_count = Some e ->
  CudaMemcpyHtoD context dst src bytes_count stream d = (Some e, d).
Proof. intros Hno. unfold CudaMemcpyHtoD. rewrite Hno. reflexivity. Qed.

Lemma CudaMemcpyDtoH_refused context dst src bytes_count stream (d : Device D) e :
  CheckMemcpySizes (HostBuffer.size dst) (GpuBuffer.size src) bytes_count = Some e ->
  CudaMemcpyDtoH context dst src bytes_count stream d = (Some e, d).
Proof. intros Hno. unfold CudaMemcpyDtoH. rewrite Hno. reflexivity. Qed.
End MemcpyFacts.

(** C9.  In both copy kernels, a source or a destination smaller than the
    byte count yields the matching error with the device untouched: no
    context switch, no copy.  Any call to the driver, the copy included,
    implies that both buffers hold at least the byte count; and a
    non-negative count that fits does reach the driver. *)
Theorem memcpy_checks_sizes_before_any_driver_call :
  forall (D : Type) (Drv : Driver D) (context : GpuContext.t) (gpu : GpuBuffer.t)
         (host : HostBuffer.t) (bytes_count : Z) (stream : GpuStream.t) (d : Device D),
    size_t_range (GpuBuffer.size gpu) ->
    size_t_range (HostBuffer.size host) ->
    int64_range bytes_count ->
    ((HostBuffer.size host < bytes_count ->
      CudaMemcpyHtoD context gpu host bytes_count stream d =
        (Some (MakeStringError
                 ("source buffer is smaller (" +:+ pretty (HostBuffer.size host) +:+
                  ") than number of bytes to copy (" +:+ pretty bytes_count +:+ ")")), d))
     /\ (bytes_count <= HostBuffer.size host -> GpuBuffer.size gpu < bytes_count ->
         CudaMemcpyHtoD context gpu host bytes_count stream d =
           (Some (MakeStringError
                    ("destination buffer is smaller (" +:+ pretty (GpuBuffer.size gpu) +:+
                     ") than number of bytes to copy (" +:+ pretty bytes_count +:+ ")")), d))
     /\ (trace (snd (CudaMemcpyHtoD context gpu host bytes_count stream d)) <> trace d ->
         bytes_count <= HostBuffer.size host /\ bytes_count <= GpuBuffer.size gpu)
     /\ (0 <= bytes_count -> bytes_count <= HostBuffer.size host ->
         bytes_count <= GpuBuffer.size gpu ->
         forall cur,
           fst (driver_CtxSetCurrent (GpuContext.get context) (driver d)) = Value cur ->
           trace (snd (CudaMemcpyHtoD context gpu host bytes_count stream d)) =
             trace d ++
             [CallCtxSetCurrent (GpuContext.get context);
              CallMemcpyAsync cur (GpuBuffer.pointer gpu)
                {| raw := HostBuffer.data host; platform := GpuContext.platform context |}
                bytes_count (GpuStream.get stream)]))
    /\ ((GpuBuffer.size gpu < bytes_count ->
         CudaMemcpyDtoH context host gpu bytes_count stream d =
           (Some (MakeStringError
                    ("source buffer is smaller (" +:+ pretty (GpuBuffer.size gpu) +:+
                     ") than number of bytes to copy (" +:+ pretty bytes_count +:+ ")")), d))
        /\ (bytes_count <= GpuBuffer.size gpu -> HostBuffer.size host < bytes_count ->
            CudaMemcpyDtoH context host gpu bytes_count stream d =
              (Some (MakeStringError
                       ("destination buffer is smaller (" +:+ pretty (HostBuffer.size host) +:+
                        ") than number of bytes to copy (" +:+ pretty bytes_count +:+ ")")), d))
        /\ (trace (snd (CudaMemcpyDtoH context host gpu bytes_count stream d)) <> trace d ->
            bytes_count <= GpuBuffer.size gpu /\ bytes_count <= HostBuffer.size host)
        /\ (0 <= bytes_count -> bytes_count <= GpuBuffer.size gpu ->
            bytes_count <= HostBuffer.size host ->
            forall cur,
              fst (driver_CtxSetCurrent (GpuContext.get context) (driver d)) = Value cur ->
              trace (snd (CudaMemcpyDtoH context host gpu bytes_count stream d)) =
                trace d ++
                [CallCtxSetCurrent (GpuContext.get context);
                 CallMemcpyAsync cur
                   {| raw := HostBuffer.data host; platform := GpuContext.platform context |}
                   (GpuBuffer.pointer gpu) bytes_count (GpuStream.get stream)])).
Proof.
  intros D Drv context gpu host bytes_count stream d Hg Hh Hc.
  split; (split; [|split; [|split]]).
  - intros Hlt. apply CudaMemcpyHtoD_refused, CheckMemcpySizes_source; assumption.
  - intros Hle Hlt. apply CudaMemcpyHtoD_refused, CheckMemcpySizes_destination; assumption.
  - intros Htr.
    destruct (CheckMemcpySizes (GpuBuffer.size gpu) (HostBuffer.size host) bytes_count)
      as [e|] eqn:Hchk.
    + rewrite (CudaMemcpyHtoD_refused _ _ _ _ _ _ _ Hchk) in Htr. simpl in Htr.
      congruence.
    + eapply CheckMemcpySizes_success; eauto.
  - intros H0 Hs Hd cur Hcur.
    rewrite CudaMemcpyHtoD_checked by (apply CheckMemcpySizes_fits; assumption).
    rewrite Hcur, to_size_t_nonneg by (unfold int64_range in Hc; lia). reflexivity.
  - intros Hlt. apply CudaMemcpyDtoH_refused, CheckMemcpySizes_source; assumption.
  - intros Hle Hlt. apply CudaMemcpyDtoH_refused, CheckMemcpySizes_destination; assumption.
  - intros Htr.
    destruct (CheckMemcpySizes (HostBuffer.size host) (GpuBuffer.size gpu) bytes_count)
      as [e|] eqn:Hchk.
    + rewrite (CudaMemcpyDtoH_refused _ _ _ _ _ _ _ Hchk) in Htr. simpl in Htr.
      congruence.
    + eapply CheckMemcpySizes_success; eauto.
  - intros H0 Hs Hd cur Hcur.
    rewrite CudaMemcpyDtoH_checked by (apply CheckMemcpySizes_fits; assumption).
    rewrite Hcur, to_size_t_nonneg by (unfold int64_range in Hc; lia). reflexivity.
Qed.

Lemma memcpy_checks_sizes_before_any_driver_call_witness :
  CudaMemcpyHtoD context1 (gpu_buffer 16) (host_buffer 8) 12 stream1 device0 =
    (Some (MakeStringError
             "source buffer is smaller (8) than number of bytes to copy (12)"), device0)
  /\ CudaMemcpyHtoD context1 (gpu_buffer 4) (host_buffer 8) 6 stream1 device0 =
       (Some (MakeStringError
                "destination buffer is smaller (4) than number of bytes to copy (6)"),
        device0)
  /\ (8 <= HostBuffer.size (host_buffer 8) /\ 8 <= GpuBuffer.size (gpu_buffer 16))
  /\ trace (snd (CudaMemcpyHtoD context1 (gpu_buffer 16) (host_buffer 8) 8 stream1 device0)) =
       [CallCtxSetCurrent 1;
        CallMemcpyAsync 1 {| raw := 4096; platform := CUDA |}
          {| raw := 8192; platform := CUDA |} 8 2]
  /\ CudaMemcpyDtoH context1 (host_buffer 8) (gpu_buffer 4) 6 stream1 device0 =
       (Some (MakeStringError
                "source buffer is smaller (4) than number of bytes to copy (6)"), device0)
  /\ CudaMemcpyDtoH context1 (host_buffer 8) (gpu_buffer 16) 12 stream1 device0 =
       (Some (MakeStringError
                "destination buffer is smaller (8) than number of bytes to copy (12)"),
        device0)
  /\ (8 <= GpuBuffer.size (gpu_buffer 16) /\ 8 <= HostBuffer.size (host_buffer 8))
  /\ trace (snd (CudaMemcpyDtoH context1 (host_buffer 8) (gpu_buffer 16) 8 stream1 device0)) =
       [CallCtxSetCurrent 1;
        CallMemcpyAsync 1 {| raw := 8192; platform := CUDA |}
          {| raw := 4096; platform := CUDA |} 8 2].
Proof.
  assert (R16 : size_t_range (GpuBuffer.size (gpu_buffer 16)))
    by (unfold size_t_range; simpl; lia).
  assert (R4 : size_t_range (GpuBuffer.size (gpu_buffer 4)))
    by (unfold size_t_range; simpl; lia).
  assert (R8 : size_t_range (HostBuffer.size (host_buffer 8)))
    by (unfold size_t_range; simpl; lia).
  assert (C12 : int64_range 12) by (unfold int64_range; lia).
  assert (C6 : int64_range 6) by (unfold int64_range; lia).
  assert (C8 : int64_range 8) by (unfold int64_range; lia).
  destruct (memcpy_checks_sizes_before_any_driver_call (list Z) _ context1
              (gpu_buffer 16) (host_buffer 8) 12 stream1 device0 R16 R8 C12)
    as ((HA1 & _) & (_ & HA2 & _)).
  destruct (memcpy_checks_sizes_before_any_driver_call (list Z) _ context1
              (gpu_buffer 4) (host_buffer 8) 6 stream1 device0 R4 R8 C6)
    as ((_ & HB1 & _) & (HB2 & _)).
  destruct (memcpy_checks_sizes_before_any_driver_call (list Z) _ context1
              (gpu_buffer 16) (host_buffer 8) 8 stream1 device0 R16 R8 C8)
    as ((_ & _ & HC1 & HC2) & (_ & _ & HC3 & HC4)).
  split; [|split; [|split; [|split; [|split; [|split; [|split]]]]]].
  - apply HA1. simpl. lia.
  - apply HB1; simpl; lia.
  - apply HC1. simpl. discriminate.
  - apply (HC2 ltac:(lia) ltac:(simpl; lia) ltac:(simpl; lia) 1). reflexivity.
  - apply HB2. simpl. lia.
  - apply HA2; simpl; lia.
  - apply HC3. simpl. discriminate.
  - apply (HC4 ltac:(lia) ltac:(simpl; lia) ltac:(simpl; lia) 1). reflexivity.
Defined.

(** ** kernels.cc: tfrt_gpu.tensor.make *)

(** What the kernel checks: validity, and equality of the buffer size
    with the product reduced modulo 2^64. *)
Lemma CudaTensorMake_checks (T : DType) (buffer : GpuBuffer.t) (shape : TensorShape.t) :
  (has_value (CudaTensorMake T buffer shape) = false <->
     GpuBuffer.valid buffer = false
     \/ GpuBuffer.size buffer <>
          (to_size_t (TensorShape.GetNumElements shape) * GetHostSize T) mod 2 ^ 64)
  /\ (forall tensor, CudaTensorMake T buffer shape = Value tensor ->
        DenseGpuTensor.shape tensor = shape
        /\ DenseGpuTensor.dtype tensor = T
        /\ GpuCrtBuffer.pointer (DenseGpuTensor.buffer tensor) = GpuBuffer.pointer buffer
        /\ GpuCrtBuffer.size (DenseGpuTensor.buffer tensor) = GpuBuffer.size buffer).
Proof.
  unfold CudaTensorMake.
  destruct (GpuBuffer.valid buffer); simpl.
  - destruct (Z.eqb_spec (GpuBuffer.size buffer)
                ((to_size_t (TensorShape.GetNumElements shape) * GetHostSize T) mod 2 ^ 64))
      as [Heq|Hne]; simpl.
    + split.
      * split; [discriminate|]. intros [Hv|Hs]; [discriminate|contradiction].
      * intros tensor [= <-]. simpl. auto.
    + split.
      * split; auto.
      * discriminate.
  - split.
    + split; auto.
    + discriminate.
Qed.

(** As long as the byte count of the shape fits a [size_t], the check is
    the comparison of the mathematical values. *)
Lemma CudaTensorMake_exact_below_2_64 (T : DType) (buffer : GpuBuffer.t)
    (shape : TensorShape.t) :
  0 <= TensorShape.GetNumElements shape ->
  TensorShape.GetNumElements shape * GetHostSize T < 2 ^ 64 ->
  (has_value (CudaTensorMake T buffer shape) = false <->
     GpuBuffer.valid buffer = false
     \/ GpuBuffer.size buffer <> TensorShape.GetNumElements shape * GetHostSize T).
Proof.
  intros Hn Hfit.
  destruct (CudaTensorMake_checks T buffer shape) as [Hchk _].
  assert (Hhs : 1 <= GetHostSize T) by (destruct T; simpl; lia).
  assert (Hsmall : TensorShape.GetNumElements shape < 2 ^ 64) by nia.
  rewrite to_size_t_nonneg in Hchk by lia.
  rewrite Z.mod_small in Hchk by nia.
  exact Hchk.
Qed.

(** C10, at the input where the code departs from it: an 8-byte buffer
    and a shape of 2^61 + 1 elements of type i64.  The byte count of the
    shape is 2^64 + 8, not 8, yet the kernel returns a tensor. *)
Theorem CudaTensorMake_accepts_wrapped_byte_count :
  TensorShape.GetNumElements huge_shape * GetHostSize I64 = 2 ^ 64 + 8
  /\ GpuBuffer.valid (gpu_buffer 8) = true
  /\ GpuBuffer.size (gpu_buffer 8) <>
       TensorShape.GetNumElements huge_shape * GetHostSize I64
  /\ CudaTensorMake I64 (gpu_buffer 8) huge_shape
     = Value {| DenseGpuTensor.shape := huge_shape;
                DenseGpuTensor.dtype := I64;
                DenseGpuTensor.buffer :=
                  {| GpuCrtBuffer.pointer := {| raw := 4096; platform := CUDA |};
                     GpuCrtBuffer.size := 8 |} |}.
Proof.
  split; [|split; [|split]].
  - reflexivity.
  - reflexivity.
  - vm_compute. discriminate.
  - vm_compute. reflexivity.
Qed.

(* ================================================================== *)
(** * Part III.  Further properties of the kernels *)
(* ================================================================== *)

(** ** Resolving one future leaves the others alone *)

Section ResolveFrame.
Context {T : Type}.
Implicit Types (h : list (AsyncValue T)) (a : AsyncValue T).

Lemma resolve_inv r a h h' :
  resolve r a h = Some h' ->
  h !! cell r = Some Unresolved /\ h' = <[cell r := a]> h.
Proof.
  unfold resolve. destruct (h !! cell r) as [[| |]|]; try discriminate.
  intros [= <-]. auto.
Qed.

Lemma resolve_frame r a h h' :
  resolve r a h = Some h' ->
  length h' = length h
  /\ h' !! cell r = Some a
  /\ forall i, i <> cell r -> h' !! i = h !! i.
Proof.
  intros Hres. destruct (resolve_inv _ _ _ _ Hres) as [Hu ->].
  split; [apply length_insert|]. split.
  - apply list_lookup_insert_eq. eapply lookup_lt_Some; eassumption.
  - intros i Hi. apply list_lookup_insert_ne. congruence.
Qed.

Lemma on_heap_resolve_new {Env : Type} (hp : list (AsyncValue T)) (e : Env)
    (q : ConcurrentWorkQueue T Env) a :
  on_heap (resolve {| cell := length hp |} a)
    {| memory := {| env := e; heap := hp ++ [Unresolved] |}; work_queue := q |}
  = Some (tt, {| memory := {| env := e; heap := hp ++ [a] |}; work_queue := q |}).
Proof. unfold on_heap; simpl. rewrite resolve_fresh. reflexivity. Qed.
End ResolveFrame.

(** ** kernels.cc: tfrt_gpu.stream.synchronize *)

Section StreamSynchronizeFacts.
Context {D : Type} {DX : DriverX D}.
Implicit Types (h : HostContext Chain (Gpu D)) (m : Memory Chain (Gpu D)).


End StreamSynchronizeFacts.

(** X1.  [CudaStreamSynchronizeAsync] never synchronises on the calling
    thread and never fails an assertion: it returns a new output chain,
    leaves the device and every earlier future as they were, and either
    appends its closure to the blocking lane with the chain unresolved,
    or, when the lane is full, changes no lane and resolves the chain
    with the enqueue error. *)
Theorem CudaStreamSynchronizeAsync_submits :
  forall (D : Type) (DX : DriverX D) (stream : GpuStream.t) (in_chain : Chain)
         (h : HostContext Chain (Gpu D)),
    exists h',
      CudaStreamSynchronizeAsync stream in_chain h =
        Some ({| cell := length (heap (memory h)) |}, h')
      /\ env (memory h') = env (memory h)
      /\ nonblocking (work_queue h') = nonblocking (work_queue h)
      /\ threads (work_queue h') = threads (work_queue h)
      /\ (if (length (blocking (work_queue h)) <? max_blocking (work_queue h))%nat
          then blocking (work_queue h') =
                 blocking (work_queue h)
                 ++ [stream_synchronize_work {| cell := length (heap (memory h)) |}
                       stream in_chain]
               /\ heap (memory h') = heap (memory h) ++ [Unresolved]
          else work_queue h' = work_queue h
               /\ heap (memory h') =
                    heap (memory h)
                    ++ [HasError (MakeStringError "Failed to enqueue blocking work.")]).
Proof.
  intros D DX stream in_chain h.
  unfold CudaStreamSynchronizeAsync, hbind. rewrite alloc_eq.
  unfold EnqueueBlockingWork_void. cbn [work_queue memory heap env].
  destruct (length (blocking (work_queue h)) <? max_blocking (work_queue h))%nat.
  - eexists. split; [reflexivity|]. simpl. auto 6.
  - cbn [negb]. unfold SetError. rewrite on_heap_resolve_new.
    eexists. split; [reflexivity|]. simpl. auto 6.
Qed.



(** ** kernels.cc: tfrt_gpu.event.synchronize, the calls to the driver *)

Section EventDiscipline.
Context {D : Type} {Drv : Driver D}.
Implicit Types (h : HostContext Chain (Device D)) (m : Memory Chain (Device D)).

End EventDiscipline.

(** X3.  On every path [CudaEventSynchronizeAsync] returns, without
    failing an assertion, a new output chain; the calling thread makes
    exactly one call to the driver, the event query, and never the
    synchronisation; earlier futures and the other two lanes are left as
    they were. *)
Theorem CudaEventSynchronizeAsync_queries_once :
  forall (D : Type) (Drv : Driver D) (event : GpuEvent.t) (in_chain : Chain)
         (h : HostContext Chain (Device D)),
    exists h' a,
      CudaEventSynchronizeAsync event in_chain h =
        Some ({| cell := length (heap (memory h)) |}, h')
      /\ heap (memory h') = heap (memory h) ++ [a]
      /\ env (memory h') =
           {| driver := snd (driver_EventQuery (GpuEvent.get event)
                               (driver (env (memory h))));
              trace := trace (env (memory h))
                       ++ [CallEventQuery (GpuEvent.get event)] |}
      /\ nonblocking (work_queue h') = nonblocking (work_queue h)
      /\ threads (work_queue h') = threads (work_queue h).
Proof.
  intros D Drv event in_chain h.
  rewrite CudaEventSynchronizeAsync_unfold.
  destruct (fst (driver_EventQuery (GpuEvent.get event) (driver (env (memory h)))))
    as [[|]|e].
  - unfold hbind, emplace. rewrite on_heap_resolve_new.
    do 2 eexists. split; [reflexivity|]. simpl. auto.
  - unfold hbind, EnqueueBlockingWork_void. cbn [work_queue memory heap env].
    destruct (_ <? _)%nat.
    + do 2 eexists. split; [reflexivity|]. simpl. auto.
    + cbn [negb]. unfold SetError. rewrite on_heap_resolve_new.
      do 2 eexists. split; [reflexivity|]. simpl. auto.
  - unfold hbind, SetError. rewrite on_heap_resolve_new.
    do 2 eexists. split; [reflexivity|]. simpl. auto.
Qed.



(** ** kernels.cc: tfrt_gpu.function.launch *)

(** The loop with its accumulator, against the argument-wise reading. *)
Lemma push_arg_values_mapM (args : list KernelArg) (acc : list Z) :
  push_arg_values acc args =
    match mapM arg_value args with
    | Some vs => Value (acc ++ vs)
    | None => Unexpected (MakeStringError "Unsupported argument type")
    end.
Proof.
  revert acc. induction args as [|arg args IH]; intros acc; simpl.
  - rewrite app_nil_r. reflexivity.
  - destruct arg as [buffer|value|]; simpl; [| |reflexivity].
    + rewrite IH. destruct (mapM arg_value args); simpl; [|reflexivity].
      rewrite <- app_assoc. reflexivity.
    + rewrite IH. destruct (mapM arg_value args); simpl; [|reflexivity].
      rewrite <- app_assoc. reflexivity.
Qed.

Lemma arg_value_None (arg : KernelArg) : arg_value arg = None <-> arg = ArgOther.
Proof. destruct arg; simpl; split; congruence. Qed.

Lemma mapM_arg_value_None (args : list KernelArg) :
  mapM arg_value args = None <-> In ArgOther args.
Proof.
  rewrite mapM_None, Exists_exists. split.
  - intros (arg & Hin & Hnone). apply arg_value_None in Hnone. subst.
    apply list_elem_of_In. exact Hin.
  - intros Hin. exists ArgOther. split; [apply list_elem_of_In; exact Hin|reflexivity].
Qed.

(** X5.  The argument loop of [CudaFunctionLaunch] succeeds exactly when
    every argument is a [GpuBuffer] or an [int32_t], and then yields one
    word per argument, in the order of the arguments; it fails exactly
    when some argument has another type, always with the error
    "Unsupported argument type". *)
Theorem push_arg_values_marshals :
  forall args : list KernelArg,
    (forall arg_values,
        push_arg_values [] args = Value arg_values <->
        Forall2 (fun arg v => arg_value arg = Some v) args arg_values)
    /\ (forall arg_values,
        push_arg_values [] args = Value arg_values ->
        length arg_values = length args)
    /\ (has_value (push_arg_values [] args) = false <-> In ArgOther args)
    /\ (forall e,
        push_arg_values [] args = Unexpected e ->
        e = MakeStringError "Unsupported argument type").
Proof.
  intros args. rewrite push_arg_values_mapM.
  destruct (mapM arg_value args) as [vs|] eqn:Hm; simpl.
  - apply mapM_Some in Hm.
    split; [|split; [|split]].
    + intros arg_values. split.
      * intros [= <-]. exact Hm.
      * intros HF. f_equal. apply mapM_Some in HF, Hm. congruence.
    + intros arg_values [= <-]. symmetry. eapply Forall2_length. exact Hm.
    + split; [discriminate|]. intros Hin.
      apply mapM_arg_value_None in Hin. apply mapM_Some in Hm. congruence.
    + discriminate.
  - split; [|split; [|split]].
    + intros arg_values. split; [discriminate|].
      intros HF. apply mapM_Some in HF. congruence.
    + discriminate.
    + split; [|reflexivity]. intros _. apply mapM_arg_value_None. exact Hm.
    + intros e [= <-]. reflexivity.
Qed.

Lemma push_arg_values_marshals_witness :
  push_arg_values [] [ArgGpuBuffer (gpu_buffer 16); ArgInt32 (-1)]
    = Value [4096; 18446744073709551615]
  /\ length [4096; 18446744073709551615]
     = length [ArgGpuBuffer (gpu_buffer 16); ArgInt32 (-1)]
  /\ has_value (push_arg_values [] [ArgInt32 7; ArgOther; ArgInt32 8]) = false
  /\ MakeStringError "Unsupported argument type"
     = MakeStringError "Unsupported argument type".
Proof.
  destruct (push_arg_values_marshals [ArgGpuBuffer (gpu_buffer 16); ArgInt32 (-1)])
    as (Hiff & Hlen & _ & _).
  destruct (push_arg_values_marshals [ArgInt32 7; ArgOther; ArgInt32 8])
    as (_ & _ & Hbad & Herr).
  split; [|split; [|split]].
  - apply Hiff. repeat constructor.
  - apply Hlen. reflexivity.
  - apply Hbad. simpl. auto.
  - symmetry. apply Herr. reflexivity.
Defined.

(** X6.  An [int32_t] argument becomes the 64-bit word of its sign
    extension: the word is the value itself when non-negative and the
    value plus 2^64 when negative, its low 32 bits are those of the
    value, and different values give different words. *)
Theorem int32_argument_word :
  forall v : Z,
    int32_range v ->
    exists w,
      arg_value (ArgInt32 v) = Some w
      /\ size_t_range w
      /\ w mod 2 ^ 32 = v mod 2 ^ 32
      /\ (0 <= v -> w = v)
      /\ (v < 0 -> w = v + 2 ^ 64)
      /\ (forall v', int32_range v' -> arg_value (ArgInt32 v') = Some w -> v' = v).
Proof.
  unfold int32_range, size_t_range. intros v Hv.
  exists (to_size_t v). simpl.
  assert (Hcases : (0 <= v /\ to_size_t v = v) \/ (v < 0 /\ to_size_t v = v + 2 ^ 64)).
  { destruct (Z_lt_le_dec v 0) as [Hneg|Hpos].
    - right. split; [exact Hneg|]. apply to_size_t_neg. lia.
    - left. split; [exact Hpos|]. apply to_size_t_nonneg. lia. }
  split; [reflexivity|]. split; [|split; [|split; [|split]]].
  - destruct Hcases as [[? ->]|[? ->]]; lia.
  - destruct Hcases as [[? ->]|[? ->]]; [reflexivity|].
    rewrite <- (Z_mod_plus_full v (2 ^ 32) (2 ^ 32)). f_equal.
  - intros Hpos. destruct Hcases as [[? ->]|[? ?]]; [reflexivity|lia].
  - intros Hneg. destruct Hcases as [[? ?]|[? ->]]; [lia|reflexivity].
  - intros v' Hv' [= Heq].
    assert (Hcases' : to_size_t v' = v' \/ (v' < 0 /\ to_size_t v' = v' + 2 ^ 64)).
    { destruct (Z_lt_le_dec v' 0) as [Hneg|Hpos].
      - right. split; [exact Hneg|]. apply to_size_t_neg. lia.
      - left. apply to_size_t_nonneg. lia. }
    destruct Hcases as [[? Hw]|[? Hw]]; destruct Hcases' as [Hw'|[? Hw']]; lia.
Qed.

Lemma int32_argument_word_witness :
  exists w,
    arg_value (ArgInt32 (-2)) = Some w
    /\ w = -2 + 2 ^ 64
    /\ w mod 2 ^ 32 = (-2) mod 2 ^ 32.
Proof.
  assert (R : int32_range (-2)) by (unfold int32_range; lia).
  destruct (int32_argument_word (-2) R) as (w & H1 & _ & H3 & _ & H5 & _).
  exists w. split; [exact H1|]. split; [apply H5; lia | exact H3].
Defined.

Section LaunchFacts.
Context {D : Type} {Drv : Driver D} {DX : DriverX D}.

(** The context switch as the full device sees it. *)
Lemma wrapperX_CtxSetCurrent_eq (context : Z) (g : Gpu D) :
  wrapperX.CtxSetCurrent context g =
    (fst (driver_CtxSetCurrent context (gpu_state g)),
     {| gpu_state := snd (driver_CtxSetCurrent context (gpu_state g));
        issued := issued g ++ [Wrapped (CallCtxSetCurrent context)] |}).
Proof.
  unfold wrapperX.CtxSetCurrent, wrapped, wrapper.CtxSetCurrent, traced. simpl.
  destruct (driver_CtxSetCurrent context (gpu_state g)); reflexivity.
Qed.

Lemma issue_eq {A} (c : GpuCall) (f : D -> A * D) (g : Gpu D) :
  issue c f g =
    (fst (f (gpu_state g)),
     {| gpu_state := snd (f (gpu_state g)); issued := issued g ++ [c] |}).
Proof. unfold issue. destruct (f (gpu_state g)); reflexivity. Qed.
End LaunchFacts.

(** X7.  [CudaFunctionLaunch] launches nothing when the context switch
    fails or when some argument is neither a [GpuBuffer] nor an
    [int32_t]: it returns the error of the switch, respectively
    "Unsupported argument type", and the context switch is the only call
    the driver has seen.  The arguments are inspected only after the
    switch. *)
Theorem CudaFunctionLaunch_refuses :
  forall (D : Type) (Drv : Driver D) (DX : DriverX D)
         (stream : InContext GpuStream.t) (function : Z)
         (grid_dim_x grid_dim_y grid_dim_z block_dim_x block_dim_y block_dim_z : Z)
         (shared_memory_size_bytes : Z) (chain : Chain) (args : list KernelArg)
         (g : Gpu D),
    let context := GpuContext.get (owner stream) in
    let switched :=
      {| gpu_state := snd (driver_CtxSetCurrent context (gpu_state g));
         issued := issued g ++ [Wrapped (CallCtxSetCurrent context)] |} in
    (forall e,
        fst (driver_CtxSetCurrent context (gpu_state g)) = Unexpected e ->
        CudaFunctionLaunch stream function grid_dim_x grid_dim_y grid_dim_z
          block_dim_x block_dim_y block_dim_z shared_memory_size_bytes chain args g
        = (Some e, switched))
    /\ (forall cur,
        fst (driver_CtxSetCurrent context (gpu_state g)) = Value cur ->
        In ArgOther args ->
        CudaFunctionLaunch stream function grid_dim_x grid_dim_y grid_dim_z
          block_dim_x block_dim_y block_dim_z shared_memory_size_bytes chain args g
        = (Some (MakeStringError "Unsupported argument type"), switched)).
Proof.
  intros D Drv DX stream function gx gy gz bx by_ bz shared chain args g
         context switched.
  split.
  - intros e He. unfold CudaFunctionLaunch.
    rewrite wrapperX_CtxSetCurrent_eq. fold context. rewrite He. reflexivity.
  - intros cur Hcur Hin. unfold CudaFunctionLaunch.
    rewrite wrapperX_CtxSetCurrent_eq. fold context. rewrite Hcur.
    rewrite push_arg_values_mapM.
    apply mapM_arg_value_None in Hin. rewrite Hin. reflexivity.
Qed.

Lemma CudaFunctionLaunch_refuses_witness :
  CudaFunctionLaunch
    {| resource := stream1;
       owner := {| GpuContext.get := -1; GpuContext.platform := CUDA |} |}
    7 1 1 1 32 1 1 0 MkChain [ArgInt32 5] gpu0
  = (Some invalid_handle,
     {| gpu_state := []; issued := [Wrapped (CallCtxSetCurrent (-1))] |})
  /\ CudaFunctionLaunch stream_in_context1 7 1 1 1 32 1 1 0 MkChain
       [ArgInt32 5; ArgOther] gpu0
     = (Some (MakeStringError "Unsupported argument type"),
        {| gpu_state := []; issued := [Wrapped (CallCtxSetCurrent 1)] |}).
Proof.
  split.
  - exact (proj1 (CudaFunctionLaunch_refuses (list Z) _ _
                    {| resource := stream1;
                       owner := {| GpuContext.get := -1;
                                   GpuContext.platform := CUDA |} |}
                    7 1 1 1 32 1 1 0 MkChain [ArgInt32 5] gpu0)
             invalid_handle eq_refl).
  - exact (proj2 (CudaFunctionLaunch_refuses (list Z) _ _ stream_in_context1
                    7 1 1 1 32 1 1 0 MkChain [ArgInt32 5; ArgOther] gpu0)
             1 eq_refl (or_intror (or_introl eq_refl))).
Defined.

(** X8.  When the context switch succeeds and every argument is a
    [GpuBuffer] or an [int32_t], [CudaFunctionLaunch] makes exactly two
    calls: the switch, then one launch on the current context with the
    given function, dimensions, shared memory size and stream, and with
    one word per argument in the order given; it returns what the launch
    returned. *)
Theorem CudaFunctionLaunch_launches :
  forall (D : Type) (Drv : Driver D) (DX : DriverX D)
         (stream : InContext GpuStream.t) (function : Z)
         (grid_dim_x grid_dim_y grid_dim_z block_dim_x block_dim_y block_dim_z : Z)
         (shared_memory_size_bytes : Z) (chain : Chain) (args : list KernelArg)
         (g : Gpu D) (cur : Z) (arg_values : list Z),
    let context := GpuContext.get (owner stream) in
    let s1 := snd (driver_CtxSetCurrent context (gpu_state g)) in
    let launch :=
      driver_LaunchKernel cur function (grid_dim_x, grid_dim_y, grid_dim_z)
        (block_dim_x, block_dim_y, block_dim_z) shared_memory_size_bytes
        (GpuStream.get (resource stream)) arg_values s1 in
    fst (driver_CtxSetCurrent context (gpu_state g)) = Value cur ->
    Forall2 (fun arg v => arg_value arg = Some v) args arg_values ->
    CudaFunctionLaunch stream function grid_dim_x grid_dim_y grid_dim_z
      block_dim_x block_dim_y block_dim_z shared_memory_size_bytes chain args g
    = (fst launch,
       {| gpu_state := snd launch;
          issued :=
            issued g
            ++ [Wrapped (CallCtxSetCurrent context);
                CallLaunchKernel cur function (grid_dim_x, grid_dim_y, grid_dim_z)
                  (block_dim_x, block_dim_y, block_dim_z) shared_memory_size_bytes
                  (GpuStream.get (resource stream)) arg_values] |}).
Proof.
  intros D Drv DX stream function gx gy gz bx by_ bz shared chain args g cur
         arg_values context s1 launch Hcur Hargs.
  unfold CudaFunctionLaunch.
  rewrite wrapperX_CtxSetCurrent_eq. fold context. rewrite Hcur.
  rewrite push_arg_values_mapM.
  apply mapM_Some in Hargs. rewrite Hargs. simpl.
  unfold wrapperX.LaunchKernel. rewrite issue_eq. simpl.
  fold s1. fold launch. rewrite <- app_assoc. reflexivity.
Qed.

Lemma CudaFunctionLaunch_launches_witness :
  CudaFunctionLaunch stream_in_context1 7 4 2 1 32 8 1 1024 MkChain
    [ArgGpuBuffer (gpu_buffer 16); ArgInt32 (-1)] gpu0
  = (None,
     {| gpu_state := [];
        issued := [Wrapped (CallCtxSetCurrent 1);
                   CallLaunchKernel 1 7 (4, 2, 1) (32, 8, 1) 1024 2
                     [4096; 18446744073709551615]] |}).
Proof.
  refine (CudaFunctionLaunch_launches (list Z) _ _ stream_in_context1 7 4 2 1 32 8 1
           1024 MkChain [ArgGpuBuffer (gpu_buffer 16); ArgInt32 (-1)] gpu0 1
           [4096; 18446744073709551615] eq_refl _).
  repeat constructor.
Defined.

(** ** kernels.cc: memory copies, further *)

Section MemcpyResults.
Context {D : Type} {Drv : Driver D}.

(** Past the size check: the whole result. *)
Lemma CudaMemcpyHtoD_passed context dst src bytes_count stream (d : Device D) :
  CheckMemcpySizes (GpuBuffer.size dst) (HostBuffer.size src) bytes_count = None ->
  let ctx := driver_CtxSetCurrent (GpuContext.get context) (driver d) in
  let d1 := {| driver := snd ctx;
               trace := trace d ++ [CallCtxSetCurrent (GpuContext.get context)] |} in
  CudaMemcpyHtoD context dst src bytes_count stream d =
    match fst ctx with
    | Unexpected e => (Some e, d1)
    | Value cur =>
        wrapper.MemcpyAsync cur (GpuBuffer.pointer dst)
          {| raw := HostBuffer.data src; platform := GpuContext.platform context |}
          (to_size_t bytes_count) (GpuStream.get stream) d1
    end.
Proof.
  intros Hok ctx d1. unfold CudaMemcpyHtoD. rewrite Hok.
  unfold wrapper.CtxSetCurrent, traced. subst ctx d1.
  destruct (driver_CtxSetCurrent (GpuContext.get context) (driver d)) as [[cur|e] s];
    reflexivity.
Qed.

Lemma CudaMemcpyDtoH_passed context dst src bytes_count stream (d : Device D) :
  CheckMemcpySizes (HostBuffer.size dst) (GpuBuffer.size src) bytes_count = None ->
  let ctx := driver_CtxSetCurrent (GpuContext.get context) (driver d) in
  let d1 := {| driver := snd ctx;
               trace := trace d ++ [CallCtxSetCurrent (GpuContext.get context)] |} in
  CudaMemcpyDtoH context dst src bytes_count stream d =
    match fst ctx with
    | Unexpected e => (Some e, d1)
    | Value cur =>
        wrapper.MemcpyAsync cur
          {| raw := HostBuffer.data dst; platform := GpuContext.platform context |}
          (GpuBuffer.pointer src) (to_size_t bytes_count) (GpuStream.get stream) d1
    end.
Proof.
  intros Hok ctx d1. unfold CudaMemcpyDtoH. rewrite Hok.
  unfold wrapper.CtxSetCurrent, traced. subst ctx d1.
  destruct (driver_CtxSetCurrent (GpuContext.get context) (driver d)) as [[cur|e] s];
    reflexivity.
Qed.

Lemma MemcpyAsync_fst cur dst src n stream (d : Device D) :
  fst (wrapper.MemcpyAsync cur dst src n stream d) =
    fst (driver_MemcpyAsync cur dst src n stream (driver d)).
Proof.
  unfold wrapper.MemcpyAsync, traced.
  destruct (driver_MemcpyAsync cur dst src n stream (driver d)); reflexivity.
Qed.

(** For a count that is not negative, passing the size check is fitting
    both buffers. *)
Lemma CheckMemcpySizes_None_iff dst_size src_size copy_size :
  size_t_range dst_size -> size_t_range src_size -> int64_range copy_size ->
  0 <= copy_size ->
  CheckMemcpySizes dst_size src_size copy_size = None <->
  copy_size <= src_size /\ copy_size <= dst_size.
Proof.
  intros Hd Hs Hc H0. split.
  - apply CheckMemcpySizes_success; assumption.
  - intros [H1 H2]. apply CheckMemcpySizes_fits; assumption.
Qed.
End MemcpyResults.

(** X9.  A negative byte count never reaches the driver: for buffers
    below 2^63 bytes both copy kernels return the source-buffer error,
    printed with the negative count, and leave the device untouched. *)
Theorem memcpy_refuses_negative_count :
  forall (D : Type) (Drv : Driver D) (context : GpuContext.t) (gpu : GpuBuffer.t)
         (host : HostBuffer.t) (bytes_count : Z) (stream : GpuStream.t) (d : Device D),
    0 <= GpuBuffer.size gpu < 2 ^ 63 ->
    0 <= HostBuffer.size host < 2 ^ 63 ->
    - 2 ^ 63 <= bytes_count < 0 ->
    CudaMemcpyHtoD context gpu host bytes_count stream d =
      (Some (MakeStringError
               ("source buffer is smaller (" +:+ pretty (HostBuffer.size host) +:+
                ") than number of bytes to copy (" +:+ pretty bytes_count +:+ ")")), d)
    /\ CudaMemcpyDtoH context host gpu bytes_count stream d =
         (Some (MakeStringError
                  ("source buffer is smaller (" +:+ pretty (GpuBuffer.size gpu) +:+
                   ") than number of bytes to copy (" +:+ pretty bytes_count +:+ ")")), d).
Proof.
  intros D Drv context gpu host bytes_count stream d Hg Hh Hc. split.
  - apply CudaMemcpyHtoD_refused, CheckMemcpySizes_negative; assumption.
  - apply CudaMemcpyDtoH_refused, CheckMemcpySizes_negative; assumption.
Qed.

Lemma memcpy_refuses_negative_count_witness :
  CudaMemcpyHtoD context1 (gpu_buffer 16) (host_buffer 8) (-1) stream1 device0 =
    (Some (MakeStringError
             "source buffer is smaller (8) than number of bytes to copy (-1)"), device0)
  /\ CudaMemcpyDtoH context1 (host_buffer 8) (gpu_buffer 16) (-1) stream1 device0 =
       (Some (MakeStringError
                "source buffer is smaller (16) than number of bytes to copy (-1)"),
        device0).
Proof.
  apply (memcpy_refuses_negative_count (list Z) _ context1 (gpu_buffer 16)
           (host_buffer 8) (-1) stream1 device0); simpl; lia.
Defined.

(** X10.  For a byte count that is not negative, each copy kernel
    returns success exactly when the count fits both buffers, the
    context switch succeeds and the driver accepts the copy; when the
    count fits but the switch fails, the kernel returns the error of the
    switch and the switch is the only call the driver has seen. *)
Theorem memcpy_succeeds_iff :
  forall (D : Type) (Drv : Driver D) (context : GpuContext.t) (gpu : GpuBuffer.t)
         (host : HostBuffer.t) (bytes_count : Z) (stream : GpuStream.t) (d : Device D),
    let ctx := driver_CtxSetCurrent (GpuContext.get context) (driver d) in
    let host_ptr :=
      {| raw := HostBuffer.data host; platform := GpuContext.platform context |} in
    size_t_range (GpuBuffer.size gpu) ->
    size_t_range (HostBuffer.size host) ->
    int64_range bytes_count ->
    0 <= bytes_count ->
    (fst (CudaMemcpyHtoD context gpu host bytes_count stream d) = None <->
       bytes_count <= HostBuffer.size host /\ bytes_count <= GpuBuffer.size gpu
       /\ exists cur,
            fst ctx = Value cur
            /\ fst (driver_MemcpyAsync cur (GpuBuffer.pointer gpu) host_ptr
                      bytes_count (GpuStream.get stream) (snd ctx)) = None)
    /\ (fst (CudaMemcpyDtoH context host gpu bytes_count stream d) = None <->
          bytes_count <= GpuBuffer.size gpu /\ bytes_count <= HostBuffer.size host
          /\ exists cur,
               fst ctx = Value cur
               /\ fst (driver_MemcpyAsync cur host_ptr (GpuBuffer.pointer gpu)
                         bytes_count (GpuStream.get stream) (snd ctx)) = None)
    /\ (forall e,
          bytes_count <= HostBuffer.size host -> bytes_count <= GpuBuffer.size gpu ->
          fst ctx = Unexpected e ->
          CudaMemcpyHtoD context gpu host bytes_count stream d =
            (Some e, {| driver := snd ctx;
                        trace := trace d
                                 ++ [CallCtxSetCurrent (GpuContext.get context)] |})
          /\ CudaMemcpyDtoH context host gpu bytes_count stream d =
               (Some e, {| driver := snd ctx;
                           trace := trace d
                                    ++ [CallCtxSetCurrent (GpuContext.get context)] |})).
Proof.
  intros D Drv context gpu host bytes_count stream d ctx host_ptr Hg Hh Hc H0.
  assert (Hconv : to_size_t bytes_count = bytes_count)
    by (apply to_size_t_nonneg; unfold int64_range in Hc; lia).
  split; [|split].
  - destruct (CheckMemcpySizes (GpuBuffer.size gpu) (HostBuffer.size host) bytes_count)
      as [err|] eqn:Hchk.
    + rewrite (CudaMemcpyHtoD_refused _ _ _ _ _ _ _ Hchk). simpl.
      split; [discriminate|]. intros (H1 & H2 & _).
      rewrite CheckMemcpySizes_fits in Hchk by assumption. discriminate.
    + destruct (CheckMemcpySizes_success _ _ _ Hg Hh Hc Hchk) as [H1 H2].
      rewrite (CudaMemcpyHtoD_passed _ _ _ _ _ _ Hchk). cbv zeta. fold ctx.
      destruct (fst ctx) as [cur|e] eqn:Hctx.
      * rewrite MemcpyAsync_fst, Hconv. simpl. fold host_ptr. split.
        -- intros Hok. split; [exact H1|]. split; [exact H2|]. eauto.
        -- intros (_ & _ & cur' & [= <-] & Hok). exact Hok.
      * simpl. split; [discriminate|]. intros (_ & _ & cur & Hcur & _). discriminate.
  - destruct (CheckMemcpySizes (HostBuffer.size host) (GpuBuffer.size gpu) bytes_count)
      as [err|] eqn:Hchk.
    + rewrite (CudaMemcpyDtoH_refused _ _ _ _ _ _ _ Hchk). simpl.
      split; [discriminate|]. intros (H1 & H2 & _).
      rewrite CheckMemcpySizes_fits in Hchk by assumption. discriminate.
    + destruct (CheckMemcpySizes_success _ _ _ Hh Hg Hc Hchk) as [H1 H2].
      rewrite (CudaMemcpyDtoH_passed _ _ _ _ _ _ Hchk). cbv zeta. fold ctx.
      destruct (fst ctx) as [cur|e] eqn:Hctx.
      * rewrite MemcpyAsync_fst, Hconv. simpl. fold host_ptr. split.
        -- intros Hok. split; [exact H1|]. split; [exact H2|]. eauto.
        -- intros (_ & _ & cur' & [= <-] & Hok). exact Hok.
      * simpl. split; [discriminate|]. intros (_ & _ & cur & Hcur & _). discriminate.
  - intros e H1 H2 He. split.
    + rewrite CudaMemcpyHtoD_passed by (apply CheckMemcpySizes_fits; assumption).
      cbv zeta. fold ctx. rewrite He. reflexivity.
    + rewrite CudaMemcpyDtoH_passed by (apply CheckMemcpySizes_fits; assumption).
      cbv zeta. fold ctx. rewrite He. reflexivity.
Qed.

Lemma memcpy_succeeds_iff_witness :
  fst (CudaMemcpyHtoD context1 (gpu_buffer 16) (host_buffer 8) 8 stream1 device0) = None
  /\ fst (CudaMemcpyDtoH context1 (host_buffer 8) (gpu_buffer 16) 0 stream1 device0) = None
  /\ CudaMemcpyHtoD {| GpuContext.get := -1; GpuContext.platform := CUDA |}
       (gpu_buffer 16) (host_buffer 8) 8 stream1 device0
     = (Some invalid_handle, {| driver := []; trace := [CallCtxSetCurrent (-1)] |}).
Proof.
  assert (R16 : size_t_range (GpuBuffer.size (gpu_buffer 16)))
    by (unfold size_t_range; simpl; lia).
  assert (R8 : size_t_range (HostBuffer.size (host_buffer 8)))
    by (unfold size_t_range; simpl; lia).
  assert (C8 : int64_range 8) by (unfold int64_range; lia).
  assert (C0 : int64_range 0) by (unfold int64_range; lia).
  split; [|split].
  - apply (proj1 (memcpy_succeeds_iff (list Z) _ context1 (gpu_buffer 16)
                    (host_buffer 8) 8 stream1 device0 R16 R8 C8 ltac:(lia))).
    split; [simpl; lia|]. split; [simpl; lia|]. exists 1. split; reflexivity.
  - apply (proj1 (proj2 (memcpy_succeeds_iff (list Z) _ context1 (gpu_buffer 16)
                           (host_buffer 8) 0 stream1 device0 R16 R8 C0 ltac:(lia)))).
    split; [simpl; lia|]. split; [simpl; lia|]. exists 1. split; reflexivity.
  - exact (proj1 (proj2 (proj2 (memcpy_succeeds_iff (list Z) _
                                  {| GpuContext.get := -1; GpuContext.platform := CUDA |}
                                  (gpu_buffer 16) (host_buffer 8) 8 stream1 device0
                                  R16 R8 C8 ltac:(lia)))
                   invalid_handle ltac:(simpl; lia) ltac:(simpl; lia) eq_refl)).
Defined.

(** X11.  The registered kernel tfrt_gpu.mem.copy_host_to_device, that is
    [CudaMemcpyHtoD] behind the adapter, records one call and hands out a
    [Chain] only if the byte count fits both buffers and the last two
    calls the driver saw are the context switch and the copy from the
    host buffer to the device buffer, whose count is the byte count
    converted to [size_t]: the byte count itself when it is not
    negative. *)
Theorem copy_host_to_device_chain_means_copied :
  forall (D : Type) (Drv : Driver D) (context : GpuContext.t) (dst : GpuBuffer.t)
         (src : HostBuffer.t) (bytes_count : Z) (stream : GpuStream.t)
         (o : Observed (Device D)
                (GpuContext.t * GpuBuffer.t * HostBuffer.t * Z * GpuStream.t)),
    size_t_range (GpuBuffer.size dst) ->
    size_t_range (HostBuffer.size src) ->
    int64_range bytes_count ->
    let out := copy_host_to_device (context, dst, src, bytes_count, stream) o in
    calls (snd out) = calls o ++ [(context, dst, src, bytes_count, stream)]
    /\ (has_value (fst out) = true ->
        fst out = Value MkChain
        /\ bytes_count <= HostBuffer.size src
        /\ bytes_count <= GpuBuffer.size dst
        /\ exists cur,
             trace (proc (snd out)) =
               trace (proc o)
               ++ [CallCtxSetCurrent (GpuContext.get context);
                   CallMemcpyAsync cur (GpuBuffer.pointer dst)
                     {| raw := HostBuffer.data src;
                        platform := GpuContext.platform context |}
                     (to_size_t bytes_count) (GpuStream.get stream)]
             /\ fst (driver_MemcpyAsync cur (GpuBuffer.pointer dst)
                       {| raw := HostBuffer.data src;
                          platform := GpuContext.platform context |}
                       (to_size_t bytes_count) (GpuStream.get stream)
                       (snd (driver_CtxSetCurrent (GpuContext.get context)
                               (driver (proc o))))) = None
             /\ (0 <= bytes_count -> to_size_t bytes_count = bytes_count)).
Proof.
  intros D Drv context dst src bytes_count stream o Hd Hs Hc out.
  subst out. unfold copy_host_to_device, Invoke_Error, bind, ret.
  rewrite call_once. cbn [fst snd proc calls].
  split.
  - destruct (fst (CudaMemcpyHtoD context dst src bytes_count stream (proc o)));
      reflexivity.
  - destruct (fst (CudaMemcpyHtoD context dst src bytes_count stream (proc o)))
      as [e|] eqn:Hres; cbn [fst snd proc has_value]; [discriminate|].
    intros _. split; [reflexivity|].
    destruct (CheckMemcpySizes (GpuBuffer.size dst) (HostBuffer.size src) bytes_count)
      as [err|] eqn:Hchk.
    { rewrite (CudaMemcpyHtoD_refused _ _ _ _ _ _ _ Hchk) in Hres. discriminate. }
    destruct (CheckMemcpySizes_success _ _ _ Hd Hs Hc Hchk) as [H1 H2].
    split; [exact H1|]. split; [exact H2|].
    rewrite (CudaMemcpyHtoD_checked _ _ _ _ _ _ Hchk).
    rewrite (CudaMemcpyHtoD_passed _ _ _ _ _ _ Hchk) in Hres. cbv zeta in Hres.
    destruct (fst (driver_CtxSetCurrent (GpuContext.get context) (driver (proc o))))
      as [cur|e]; [|discriminate].
    rewrite MemcpyAsync_fst in Hres. cbn [driver] in Hres.
    exists cur. split; [reflexivity|]. split; [exact Hres|].
    intros H0. apply to_size_t_nonneg. unfold int64_range in Hc. lia.
Qed.

Lemma copy_host_to_device_chain_means_copied_witness :
  fst (copy_host_to_device (context1, gpu_buffer 16, host_buffer 8, 8, stream1)
         {| proc := device0; calls := [] |}) = Value MkChain
  /\ 8 <= HostBuffer.size (host_buffer 8)
  /\ exists cur,
       trace (proc (snd (copy_host_to_device
                           (context1, gpu_buffer 16, host_buffer 8, 8, stream1)
                           {| proc := device0; calls := [] |}))) =
         [CallCtxSetCurrent 1;
          CallMemcpyAsync cur {| raw := 4096; platform := CUDA |}
            {| raw := 8192; platform := CUDA |} 8 2].
Proof.
  assert (R16 : size_t_range (GpuBuffer.size (gpu_buffer 16)))
    by (unfold size_t_range; simpl; lia).
  assert (R8 : size_t_range (HostBuffer.size (host_buffer 8)))
    by (unfold size_t_range; simpl; lia).
  assert (C8 : int64_range 8) by (unfold int64_range; lia).
  destruct (copy_host_to_device_chain_means_copied (list Z) _ context1 (gpu_buffer 16)
              (host_buffer 8) 8 stream1 {| proc := device0; calls := [] |} R16 R8 C8)
    as (_ & Hchain).
  destruct (Hchain eq_refl) as (H1 & H2 & _ & cur & H4 & _).
  split; [exact H1|]. split; [exact H2|]. exists cur. exact H4.
Defined.

(** ** kernels.cc: tfrt_gpu.tensor.make, further *)

(** X12.  [CudaTensorMake] reports an invalid buffer before it looks at
    any size.  For a valid buffer and a shape whose byte count, element
    count times [sizeof(T)], is below 2^64, it returns the tensor over
    the buffer's pointer and size when the buffer size equals the byte
    count, and otherwise the size error, which prints the buffer size,
    the shape and the element size. *)
Theorem CudaTensorMake_below_2_64 :
  forall (T : DType) (buffer : GpuBuffer.t) (shape : TensorShape.t),
    (GpuBuffer.valid buffer = false ->
     CudaTensorMake T buffer shape =
       Unexpected (MakeStringError "Cannot make tensor from invalid (moved from?) buffer"))
    /\ (GpuBuffer.valid buffer = true ->
        0 <= TensorShape.GetNumElements shape ->
        TensorShape.GetNumElements shape * GetHostSize T < 2 ^ 64 ->
        (GpuBuffer.size buffer = TensorShape.GetNumElements shape * GetHostSize T ->
         CudaTensorMake T buffer shape =
           Value {| DenseGpuTensor.shape := shape;
                    DenseGpuTensor.dtype := T;
                    DenseGpuTensor.buffer :=
                      {| GpuCrtBuffer.pointer := GpuBuffer.pointer buffer;
                         GpuCrtBuffer.size := GpuBuffer.size buffer |} |})
        /\ (GpuBuffer.size buffer <> TensorShape.GetNumElements shape * GetHostSize T ->
            CudaTensorMake T buffer shape =
              Unexpected (MakeStringError
                ("tfrt_gpu.tensor.make failed: buffer_size (" +:+
                 pretty (GpuBuffer.size buffer) +:+
                 ") is not equal to the number of elements in shape (" +:+
                 TensorShape.to_string shape +:+
                 ") times element size (" +:+ pretty (GetHostSize T) +:+ ")")))).
Proof.
  intros T buffer shape. split.
  - intros Hinv. unfold CudaTensorMake. rewrite Hinv. reflexivity.
  - intros Hval Hn Hfit.
    assert (Hhs : 1 <= GetHostSize T) by (destruct T; simpl; lia).
    assert (Hprod :
              (to_size_t (TensorShape.GetNumElements shape) * GetHostSize T) mod 2 ^ 64
              = TensorShape.GetNumElements shape * GetHostSize T).
    { rewrite to_size_t_nonneg by nia. apply Z.mod_small. nia. }
    unfold CudaTensorMake. rewrite Hval, Hprod. simpl. split.
    + intros Heq. rewrite (proj2 (Z.eqb_eq _ _) Heq). reflexivity.
    + intros Hne. rewrite (proj2 (Z.eqb_neq _ _) Hne). reflexivity.
Qed.

Lemma CudaTensorMake_below_2_64_witness :
  CudaTensorMake I8
      {| GpuBuffer.valid := false;
         GpuBuffer.pointer := {| raw := 0; platform := NONE |};
         GpuBuffer.size := 6 |}
      {| TensorShape.GetNumElements := 6; TensorShape.to_string := "[2, 3]" |}
    = Unexpected (MakeStringError "Cannot make tensor from invalid (moved from?) buffer")
  /\ has_value (CudaTensorMake F64 (gpu_buffer 0)
                  {| TensorShape.GetNumElements := 0;
                     TensorShape.to_string := "[0]" |}) = true
  /\ CudaTensorMake I32 (gpu_buffer 6)
       {| TensorShape.GetNumElements := 6; TensorShape.to_string := "[2, 3]" |}
     = Unexpected (MakeStringError
         "tfrt_gpu.tensor.make failed: buffer_size (6) is not equal to the number of elements in shape ([2, 3]) times element size (4)").
Proof.
  split; [|split].
  - apply (proj1 (CudaTensorMake_below_2_64 I8 _ _)). reflexivity.
  - rewrite (proj1 (proj2 (CudaTensorMake_below_2_64 F64 (gpu_buffer 0)
                             {| TensorShape.GetNumElements := 0;
                                TensorShape.to_string := "[0]" |})
                      eq_refl ltac:(simpl; lia) ltac:(simpl; lia)) eq_refl).
    reflexivity.
  - apply (proj2 (proj2 (CudaTensorMake_below_2_64 I32 (gpu_buffer 6)
                           {| TensorShape.GetNumElements := 6;
                              TensorShape.to_string := "[2, 3]" |})
                    eq_refl ltac:(simpl; lia) ltac:(simpl; lia))).
    simpl. lia.
Defined.

(** ** kernels.cc: creation of streams and events *)

(** X13.  [CudaStreamCreate] and [CudaEventCreate] switch to the given
    context first.  If the switch fails they return its error and create
    nothing.  Otherwise they make exactly one creation call, on the
    context the switch returned, with the flag NON_BLOCKING for a stream
    and DISABLE_TIMING for an event, and on success the result holds the
    new handle together with the context it was given. *)
Theorem create_in_current_context :
  forall (D : Type) (Drv : Driver D) (DX : DriverX D) (context : GpuContext.t)
         (g : Gpu D),
    let ctx := driver_CtxSetCurrent (GpuContext.get context) (gpu_state g) in
    let switched := issued g ++ [Wrapped (CallCtxSetCurrent (GpuContext.get context))] in
    (forall e,
        fst ctx = Unexpected e ->
        CudaStreamCreate context g =
          (Unexpected e, {| gpu_state := snd ctx; issued := switched |})
        /\ CudaEventCreate context g =
             (Unexpected e, {| gpu_state := snd ctx; issued := switched |}))
    /\ (forall cur,
        fst ctx = Value cur ->
        let made := driver_StreamCreate cur StreamFlags.NON_BLOCKING (snd ctx) in
        issued (snd (CudaStreamCreate context g)) =
          switched ++ [CallStreamCreate cur StreamFlags.NON_BLOCKING]
        /\ fst (CudaStreamCreate context g) =
             match fst made with
             | Value s =>
                 Value {| resource := {| GpuStream.get := s |}; owner := context |}
             | Unexpected e => Unexpected e
             end)
    /\ (forall cur,
        fst ctx = Value cur ->
        let made := driver_EventCreate cur EventFlags.DISABLE_TIMING (snd ctx) in
        issued (snd (CudaEventCreate context g)) =
          switched ++ [CallEventCreate cur EventFlags.DISABLE_TIMING]
        /\ fst (CudaEventCreate context g) =
             match fst made with
             | Value ev =>
                 Value {| resource := {| GpuEvent.get := ev |}; owner := context |}
             | Unexpected e => Unexpected e
             end).
Proof.
  intros D Drv DX context g ctx switched.
  split; [|split].
  - intros e He. unfold CudaStreamCreate, CudaEventCreate.
    rewrite wrapperX_CtxSetCurrent_eq. fold ctx. rewrite He. split; reflexivity.
  - intros cur Hcur made. unfold CudaStreamCreate.
    rewrite wrapperX_CtxSetCurrent_eq. fold ctx. rewrite Hcur.
    unfold wrapperX.StreamCreate. rewrite issue_eq. cbn [gpu_state issued].
    fold made. destruct (fst made); split; reflexivity.
  - intros cur Hcur made. unfold CudaEventCreate.
    rewrite wrapperX_CtxSetCurrent_eq. fold ctx. rewrite Hcur.
    unfold wrapperX.EventCreate. rewrite issue_eq. cbn [gpu_state issued].
    fold made. destruct (fst made); split; reflexivity.
Qed.

Lemma create_in_current_context_witness :
  CudaStreamCreate {| GpuContext.get := -1; GpuContext.platform := CUDA |} gpu0 =
    (Unexpected invalid_handle,
     {| gpu_state := []; issued := [Wrapped (CallCtxSetCurrent (-1))] |})
  /\ fst (CudaStreamCreate context1 gpu0) =
       Value {| resource := {| GpuStream.get := 101 |}; owner := context1 |}
  /\ issued (snd (CudaEventCreate context1 gpu0)) =
       [Wrapped (CallCtxSetCurrent 1); CallEventCreate 1 EventFlags.DISABLE_TIMING].
Proof.
  split; [|split].
  - exact (proj1 (proj1 (create_in_current_context (list Z) _ _
                           {| GpuContext.get := -1; GpuContext.platform := CUDA |} gpu0)
                    invalid_handle eq_refl)).
  - exact (proj2 (proj1 (proj2 (create_in_current_context (list Z) _ _ context1 gpu0))
                    1 eq_refl)).
  - exact (proj1 (proj2 (proj2 (create_in_current_context (list Z) _ _ context1 gpu0))
                    1 eq_refl)).
Defined.

(** ** test_kernels.cc: tfrt_gpu_test.copy_tensor_host_to_device *)

(** X14.  [TestCpyTensorHtoD] allocates before it switches context.  If
    the allocation fails it returns that error and makes no other call.
    It returns a buffer exactly when the allocation, the switch and the
    copy all succeeded; the buffer is the one the allocator returned,
    asked for with the tensor's size in bytes, and the calls made are, in
    order, the allocation, the switch, and one copy of exactly that many
    bytes from the tensor's data to the buffer's pointer.  If the switch
    or the copy fails after the allocation, the error of the failing call
    is returned and no buffer. *)
Theorem TestCpyTensorHtoD_returns_copied_buffer :
  forall (D : Type) (Drv : Driver D) (DX : DriverX D) (context : GpuContext.t)
         (allocator : Z) (stream : GpuStream.t) (src : DenseHostTensor.t) (g : Gpu D),
    let size_bytes := DenseHostTensor.DataSizeInBytes src in
    let src_ptr :=
      {| raw := DenseHostTensor.data src; platform := GpuContext.platform context |} in
    let alloc := driver_Allocate allocator size_bytes (GpuStream.get stream)
                   (gpu_state g) in
    let ctx := driver_CtxSetCurrent (GpuContext.get context) (snd alloc) in
    let allocated :=
      issued g ++ [CallAllocate allocator size_bytes (GpuStream.get stream)] in
    let switched :=
      allocated ++ [Wrapped (CallCtxSetCurrent (GpuContext.get context))] in
    (forall e,
        fst alloc = Unexpected e ->
        TestCpyTensorHtoD context allocator stream src g =
          (Unexpected e, {| gpu_state := snd alloc; issued := allocated |}))
    /\ (forall b e,
        fst alloc = Value b -> fst ctx = Unexpected e ->
        TestCpyTensorHtoD context allocator stream src g =
          (Unexpected e, {| gpu_state := snd ctx; issued := switched |}))
    /\ (forall b cur,
        fst alloc = Value b -> fst ctx = Value cur ->
        let copy := driver_Memcpy cur (GpuBuffer.pointer b) src_ptr size_bytes
                      (snd ctx) in
        TestCpyTensorHtoD context allocator stream src g =
          (match fst copy with
           | Some e => Unexpected e
           | None => Value b
           end,
           {| gpu_state := snd copy;
              issued := switched
                        ++ [CallMemcpy cur (GpuBuffer.pointer b) src_ptr size_bytes] |}))
    /\ (forall b,
        fst (TestCpyTensorHtoD context allocator stream src g) = Value b <->
        fst alloc = Value b
        /\ exists cur,
             fst ctx = Value cur
             /\ fst (driver_Memcpy cur (GpuBuffer.pointer b) src_ptr size_bytes
                       (snd ctx)) = None).
Proof.
  intros D Drv DX context allocator stream src g size_bytes src_ptr alloc ctx
         allocated switched.
  assert (Hunfold :
    TestCpyTensorHtoD context allocator stream src g =
      match fst alloc with
      | Unexpected e => (Unexpected e, {| gpu_state := snd alloc; issued := allocated |})
      | Value b =>
          match fst ctx with
          | Unexpected e => (Unexpected e, {| gpu_state := snd ctx; issued := switched |})
          | Value cur =>
              (match fst (driver_Memcpy cur (GpuBuffer.pointer b) src_ptr size_bytes
                            (snd ctx)) with
               | Some e => Unexpected e
               | None => Value b
               end,
               {| gpu_state := snd (driver_Memcpy cur (GpuBuffer.pointer b) src_ptr
                                      size_bytes (snd ctx));
                  issued := switched
                            ++ [CallMemcpy cur (GpuBuffer.pointer b) src_ptr
                                  size_bytes] |})
          end
      end).
  { unfold TestCpyTensorHtoD. fold size_bytes.
    unfold wrapperX.Allocate. rewrite issue_eq. fold alloc. fold allocated.
    destruct (fst alloc) as [b|e]; [|reflexivity].
    rewrite wrapperX_CtxSetCurrent_eq. cbn [gpu_state issued]. fold ctx. fold switched.
    destruct (fst ctx) as [cur|e]; [|reflexivity].
    unfold wrapperX.Memcpy. rewrite issue_eq. cbn [gpu_state issued]. fold src_ptr.
    destruct (fst (driver_Memcpy cur (GpuBuffer.pointer b) src_ptr size_bytes (snd ctx)));
      reflexivity. }
  split; [|split; [|split]].
  - intros e He. rewrite Hunfold, He. reflexivity.
  - intros b e Hb He. rewrite Hunfold, Hb, He. reflexivity.
  - intros b cur Hb Hcur copy. rewrite Hunfold, Hb, Hcur. reflexivity.
  - intros b. rewrite Hunfold. split.
    + destruct (fst alloc) as [b0|e]; [|discriminate].
      destruct (fst ctx) as [cur|e]; [|discriminate].
      destruct (fst (driver_Memcpy cur (GpuBuffer.pointer b0) src_ptr size_bytes
                       (snd ctx))) as [e|] eqn:Hcopy; [discriminate|].
      cbn [fst]. intros [= <-]. split; [reflexivity|]. exists cur. auto.
    + intros (Hb & cur & Hcur & Hcopy). rewrite Hb, Hcur, Hcopy. reflexivity.
Qed.

Lemma TestCpyTensorHtoD_returns_copied_buffer_witness :
  fst (TestCpyTensorHtoD context1 (-1) stream1
         {| DenseHostTensor.data := 8192; DenseHostTensor.DataSizeInBytes := 24 |} gpu0)
    = Unexpected invalid_handle
  /\ fst (TestCpyTensorHtoD {| GpuContext.get := -1; GpuContext.platform := CUDA |}
            9 stream1
            {| DenseHostTensor.data := 8192; DenseHostTensor.DataSizeInBytes := 24 |}
            gpu0)
     = Unexpected invalid_handle
  /\ TestCpyTensorHtoD context1 9 stream1
       {| DenseHostTensor.data := 8192; DenseHostTensor.DataSizeInBytes := 24 |} gpu0
     = (Value {| GpuBuffer.valid := true;
                 GpuBuffer.pointer := {| raw := 65536; platform := CUDA |};
                 GpuBuffer.size := 24 |},
        {| gpu_state := [];
           issued := [CallAllocate 9 24 2; Wrapped (CallCtxSetCurrent 1);
                      CallMemcpy 1 {| raw := 65536; platform := CUDA |}
                        {| raw := 8192; platform := CUDA |} 24] |})
  /\ fst (TestCpyTensorHtoD context1 9 stream1
            {| DenseHostTensor.data := 0; DenseHostTensor.DataSizeInBytes := 24 |}
            gpu0)
     = Unexpected invalid_handle
  /\ fst (driver_Allocate 9 24 2 []) =
       Value {| GpuBuffer.valid := true;
                GpuBuffer.pointer := {| raw := 65536; platform := CUDA |};
                GpuBuffer.size := 24 |}.
Proof.
  split; [|split; [|split; [|split]]].
  - rewrite (proj1 (TestCpyTensorHtoD_returns_copied_buffer (list Z) list_driver
                      list_driverX context1 (-1) stream1
                      {| DenseHostTensor.data := 8192;
                         DenseHostTensor.DataSizeInBytes := 24 |} gpu0)
               invalid_handle eq_refl).
    reflexivity.
  - rewrite (proj1 (proj2 (TestCpyTensorHtoD_returns_copied_buffer (list Z) list_driver
                             list_driverX
                             {| GpuContext.get := -1; GpuContext.platform := CUDA |}
                             9 stream1
                             {| DenseHostTensor.data := 8192;
                                DenseHostTensor.DataSizeInBytes := 24 |} gpu0))
               {| GpuBuffer.valid := true;
                  GpuBuffer.pointer := {| raw := 65536; platform := CUDA |};
                  GpuBuffer.size := 24 |}
               invalid_handle eq_refl eq_refl).
    reflexivity.
  - exact (proj1 (proj2 (proj2 (TestCpyTensorHtoD_returns_copied_buffer (list Z)
                                  list_driver list_driverX context1 9 stream1
                                  {| DenseHostTensor.data := 8192;
                                     DenseHostTensor.DataSizeInBytes := 24 |} gpu0)))
             {| GpuBuffer.valid := true;
                GpuBuffer.pointer := {| raw := 65536; platform := CUDA |};
                GpuBuffer.size := 24 |}
             1 eq_refl eq_refl).
  - rewrite (proj1 (proj2 (proj2 (TestCpyTensorHtoD_returns_copied_buffer (list Z)
                                    list_driver list_driverX context1 9 stream1
                                    {| DenseHostTensor.data := 0;
                                       DenseHostTensor.DataSizeInBytes := 24 |} gpu0)))
               {| GpuBuffer.valid := true;
                  GpuBuffer.pointer := {| raw := 65536; platform := CUDA |};
                  GpuBuffer.size := 24 |}
               1 eq_refl eq_refl).
    reflexivity.
  - apply (proj1 (proj2 (proj2 (proj2 (TestCpyTensorHtoD_returns_copied_buffer (list Z)
                                         list_driver list_driverX context1 9 stream1
                                         {| DenseHostTensor.data := 8192;
                                            DenseHostTensor.DataSizeInBytes := 24 |}
                                         gpu0)))
                   {| GpuBuffer.valid := true;
                      GpuBuffer.pointer := {| raw := 65536; platform := CUDA |};
                      GpuBuffer.size := 24 |})).
    reflexivity.
Defined.
